(** * kube-hpa-scale-to-zero: a shallow embedding of [main.py]

    The controller talks to the cluster through five calls (open the
    watch on HPAs, read an HPA, read a scale subresource, patch a scale
    subresource, fetch a custom metric) and reads the wall clock.  The
    cluster is not part of the program, so every reply is taken from the
    environment: the [World] holds, per call, the list of replies still
    to come, in the order the calls are made.  Each call is recorded, with
    its reply, in the list of events a computation produces; log lines
    and sleeps are events as well.  Python exceptions are an explicit
    outcome.  Clock readings are exact numbers of seconds: the rounding
    of the floats of [time()] is not modelled. *)

From Stdlib Require Import List ZArith String Ascii Bool Lia.
Import ListNotations.

Local Open Scope string_scope.
Local Open Scope list_scope.
Local Open Scope Z_scope.

Set Implicit Arguments.
Local Set Warnings "-register-all".

(** ** Python values met by the program *)

(** What [json.loads] returns.  A float is kept only as "is it zero",
    the one thing the program can observe of it. *)
Inductive json : Type :=
| JNull
| JBool (b : bool)
| JInt (n : Z)
| JFloat (is_zero : bool)
| JStr (s : string)
| JArr (items : list json)
| JObj (fields : list (string * json)).

(** The exceptions that can travel through [main.py]. *)
Inductive exn : Type :=
| ApiException (status : Z)
| MetricNotFound
| UnboundLocalError
| ValueError
| StopIteration
| AssertionError
| KeyError
| TypeError
| AttributeError
| IndexError
| JSONDecodeError.

(** Pure Python expressions that may raise. *)
Definition py (A : Type) : Type := (exn + A)%type.

Definition py_bind {A B} (x : py A) (f : A -> py B) : py B :=
  match x with
  | inl e => inl e
  | inr a => f a
  end.

Declare Scope py_scope.
Delimit Scope py_scope with py.
Notation "x <~ c1 ;; c2" := (py_bind c1 (fun x => c2))
  (at level 61, c1 at next level, right associativity) : py_scope.

(** [bool(v)] *)
Definition truthy (v : json) : bool :=
  match v with
  | JNull => false
  | JBool b => b
  | JInt n => negb (Z.eqb n 0)
  | JFloat z => negb z
  | JStr s => negb (String.eqb s "")
  | JArr l => match l with [] => false | _ => true end
  | JObj l => match l with [] => false | _ => true end
  end.

(** [d[k]] on a dict kept as its items. *)
Fixpoint dict_get {V} (k : string) (d : list (string * V)) : option V :=
  match d with
  | [] => None
  | (k', v) :: d' => if String.eqb k k' then Some v else dict_get k d'
  end.

(** [v[key]] for a string key: only a dict can be subscripted by a string. *)
Definition subscript (v : json) (key : string) : py json :=
  match v with
  | JObj d => match dict_get key d with Some x => inr x | None => inl KeyError end
  | _ => inl TypeError
  end.

(** [v.get(key)]: a dict method; a missing key gives [None]. *)
Definition dot_get (v : json) (key : string) : py json :=
  match v with
  | JObj d => match dict_get key d with Some x => inr x | None => inr JNull end
  | _ => inl AttributeError
  end.

(** [iter(v)]: a list gives its items, a dict its keys, a string its
    characters; nothing else can be iterated. *)
Definition py_iter (v : json) : py (list json) :=
  match v with
  | JArr l => inr l
  | JObj d => inr (map (fun kv => JStr (fst kv)) d)
  | JStr s => inr (map (fun c => JStr (String c EmptyString)) (list_ascii_of_string s))
  | _ => inl TypeError
  end.

(** [v == s] for a string literal [s]. *)
Definition eq_str (v : json) (s : string) : bool :=
  match v with
  | JStr t => String.eqb t s
  | _ => false
  end.

(** [assert b] *)
Definition py_assert (b : bool) : py unit :=
  if b then inr tt else inl AssertionError.

(** ** Kubernetes objects, as far as the program looks into them *)

(** [V1ObjectMeta].  Each annotation value is kept as what [json.loads]
    returns for it ([None]: the text is not JSON, [JSONDecodeError]);
    [annotations] itself is [None] when the object has no annotation. *)
Record V1ObjectMeta : Type := mkMeta {
  meta_namespace : string;
  meta_name : string;
  resource_version : string;
  annotations : option (list (string * option json))
}.

(** [V1HorizontalPodAutoscaler]: [metadata] and [spec.scale_target_ref]. *)
Record V1HorizontalPodAutoscaler : Type := mkV1HPA {
  hpa_metadata : V1ObjectMeta;
  scale_target_ref_kind : string;
  scale_target_ref_name : string
}.

(** [V1Scale]: [spec.replicas] is what a patch asks for, [status.replicas]
    what the cluster observes. *)
Record V1Scale : Type := mkScale {
  scale_metadata : V1ObjectMeta;
  spec_replicas : Z;
  status_replicas : Z;
  status_selector : string
}.

(** The value of one item of a [MetricValueList], kept as what [int()]
    makes of it. *)
Inductive quantity : Type :=
| Integral (n : Z)
| NotIntegral.

Record MetricValueList : Type := mkMetricValueList {
  items : list quantity
}.

(** The path built at line 136 is a fixed template around three values;
    it is kept as those values. *)
Record metric_path : Type := mkPath {
  service_namespace : string;
  service_name : json;
  metric_name : json
}.

(** The two scale subresources of [AppsV1Api]. *)
Inductive workload : Type :=
| Deployment
| StatefulSet.

(** The reply to an API call: the object, or the status of the
    [ApiException] raised. *)
Inductive reply (A : Type) : Type :=
| Ok (a : A)
| Failed (status : Z).
Arguments Failed {A} status.

(** ** The program's own data *)

Record HPA : Type := mkHPA {
  name : string;
  namespace : string;
  metric_value_path : metric_path;
  target_kind : string;
  target_name : string;
  scale_up_stabilization_window : Z;
  scale_down_stabilization_window : Z
}.

Definition SYNC_INTERVAL : Z := 10.
Definition STABILIZATION_CHECK_INTERVAL : Z := 1.

Inductive level : Type := INFO | WARNING | ERROR.

(** One constructor per logging call of [main.py]. *)
Inductive message : Type :=
| ExitingBecauseOf (e : exn)                                  (* l.66 *)
| HpaNotFound (ns nm : string)                                (* l.114 *)
| OnlyOneCustomMetric                                         (* l.129 *)
| CouldNotGetMetric (path : metric_path) (status : Z)         (* l.150 *)
| ReplicasTargetNotFound (ns nm : string)                     (* l.162 *)
| WasScaled (kind ns nm : string) (current needed : Z)        (* l.188 *)
| NoNeedToScale (kind ns nm : string) (current needed : Z)    (* l.193 *)
| TargetNotFound (kind ns nm : string)                        (* l.199 *)
| WillNotUpdate (kind ns target : string)                     (* l.201 *)
| WillBeScaled (kind ns nm : string) (current needed : Z)     (* l.230 *)
| ScaleCanceled (kind ns nm : string)                         (* l.240 *)
| WillWatch (selector ns : string)                            (* l.73 *)
| ScaleUpWindowIs (seconds : Z)                               (* l.74 *)
| ScaleDownWindowIs (seconds : Z).                            (* l.75 *)

(** A change event of the HPA watch: its type and [event["object"].metadata]. *)
Inductive event_type : Type := ADDED | MODIFIED | DELETED.

Record watch_event : Type := mkEvent {
  ev_type : event_type;
  ev_metadata : V1ObjectMeta
}.

(** One stream opened by [w.stream(...)]: the events it yields, then how
    it ends ([None]: the generator is exhausted; [Some status]: it raises
    [ApiException(status)]). *)
Record watch_stream : Type := mkStream {
  stream_events : list watch_event;
  stream_end : option Z
}.

(** What a run does to the outside, in order. *)
Inductive event : Type :=
| OpenWatch (ns selector : string)
| ReadHPA (ns nm : string) (r : reply V1HorizontalPodAutoscaler)
| ReadScale (k : workload) (ns nm : string) (r : reply V1Scale)
| PatchScale (k : workload) (ns nm : string) (body : V1Scale) (r : reply unit)
| GetMetric (path : metric_path) (r : reply MetricValueList)
| Sleep (seconds : Z)
| Log (lvl : level) (msg : message).

(** The registry [HPAs] (a dict: its items in insertion order, keys
    unique) and the replies the environment still has to give. *)
Record World : Type := mkWorld {
  HPAs : list (string * HPA);
  watch_streams : list watch_stream;
  hpa_reads : list (reply V1HorizontalPodAutoscaler);
  scale_reads : list (reply V1Scale);
  patch_replies : list (reply unit);
  metric_reads : list (reply MetricValueList);
  clock : list Z
}.

(** ** Computations *)

(** A call returns, raises, or finds that the environment has no reply
    left ([Starved]: the run is not described any further). *)
Inductive result (A : Type) : Type :=
| Ret (a : A)
| Raise (e : exn)
| Starved.
Arguments Raise {A} e.
Arguments Starved {A}.

Definition M (A : Type) : Type := World -> result A * list event * World.

Definition ret {A} (a : A) : M A := fun w => (Ret a, [], w).

Definition raise {A} (e : exn) : M A := fun w => (Raise e, [], w).

Definition bind {A B} (m : M A) (f : A -> M B) : M B := fun w =>
  match m w with
  | (Ret a, evs, w1) =>
      match f a w1 with
      | (r, evs', w2) => (r, evs ++ evs', w2)
      end
  | (Raise e, evs, w1) => (Raise e, evs, w1)
  | (Starved, evs, w1) => (Starved, evs, w1)
  end.

(** [try: m  except ...: handler]; [handler e = None] when no clause
    matches [e]. *)
Definition try_except {A} (m : M A) (handler : exn -> option (M A)) : M A := fun w =>
  match m w with
  | (Raise e, evs, w1) =>
      match handler e with
      | Some h =>
          match h w1 with
          | (r, evs', w2) => (r, evs ++ evs', w2)
          end
      | None => (Raise e, evs, w1)
      end
  | other => other
  end.

Definition emit (ev : event) : M unit := fun w => (Ret tt, [ev], w).

Definition log (lvl : level) (msg : message) : M unit := emit (Log lvl msg).

Definition lift {A} (x : py A) : M A :=
  match x with
  | inl e => raise e
  | inr a => ret a
  end.

Declare Scope M_scope.
Delimit Scope M_scope with M.
Notation "x <- c1 ;; c2" := (bind c1 (fun x => c2))
  (at level 61, c1 at next level, right associativity) : M_scope.
Notation "' pat <- c1 ;; c2" := (bind c1 (fun x => match x with pat => c2 end))
  (at level 61, pat pattern, c1 at next level, right associativity) : M_scope.
Notation "c1 ;; c2" := (bind c1 (fun _ => c2))
  (at level 61, right associativity) : M_scope.
Local Open Scope M_scope.

(** ** The calls to the outside *)

Definition starved {A} : M A := fun w => (Starved, [], w).

(** [AUTOSCALING_V1.read_namespaced_horizontal_pod_autoscaler] *)
Definition read_namespaced_horizontal_pod_autoscaler (ns nm : string)
  : M V1HorizontalPodAutoscaler := fun w =>
  match hpa_reads w with
  | [] => (Starved, [], w)
  | r :: rest =>
      let w' := mkWorld (HPAs w) (watch_streams w) rest (scale_reads w)
                        (patch_replies w) (metric_reads w) (clock w) in
      (match r with Ok a => Ret a | Failed st => Raise (ApiException st) end,
       [ReadHPA ns nm r], w')
  end.

(** [APP_V1.read_namespaced_deployment_scale] and
    [APP_V1.read_namespaced_stateful_set_scale] *)
Definition read_namespaced_scale (k : workload) (ns nm : string) : M V1Scale := fun w =>
  match scale_reads w with
  | [] => (Starved, [], w)
  | r :: rest =>
      let w' := mkWorld (HPAs w) (watch_streams w) (hpa_reads w) rest
                        (patch_replies w) (metric_reads w) (clock w) in
      (match r with Ok a => Ret a | Failed st => Raise (ApiException st) end,
       [ReadScale k ns nm r], w')
  end.

(** [APP_V1.patch_namespaced_deployment_scale] and
    [APP_V1.patch_namespaced_stateful_set_scale]; the object they return
    is not used. *)
Definition patch_namespaced_scale (k : workload) (ns nm : string) (body : V1Scale)
  : M unit := fun w =>
  match patch_replies w with
  | [] => (Starved, [], w)
  | r :: rest =>
      let w' := mkWorld (HPAs w) (watch_streams w) (hpa_reads w) (scale_reads w)
                        rest (metric_reads w) (clock w) in
      (match r with Ok a => Ret a | Failed st => Raise (ApiException st) end,
       [PatchScale k ns nm body r], w')
  end.

(** [DYNAMIC.request("GET", path)] *)
Definition request_GET (path : metric_path) : M MetricValueList := fun w =>
  match metric_reads w with
  | [] => (Starved, [], w)
  | r :: rest =>
      let w' := mkWorld (HPAs w) (watch_streams w) (hpa_reads w) (scale_reads w)
                        (patch_replies w) rest (clock w) in
      (match r with Ok a => Ret a | Failed st => Raise (ApiException st) end,
       [GetMetric path r], w')
  end.

(** [w.stream(AUTOSCALING_V1.list_namespaced_horizontal_pod_autoscaler, ...)] *)
Definition open_stream (ns selector : string) : M watch_stream := fun w =>
  match watch_streams w with
  | [] => (Starved, [], w)
  | s :: rest =>
      let w' := mkWorld (HPAs w) rest (hpa_reads w) (scale_reads w)
                        (patch_replies w) (metric_reads w) (clock w) in
      (Ret s, [OpenWatch ns selector], w')
  end.

(** [time()]: the next reading of the clock, in seconds. *)
Definition time : M Z := fun w =>
  match clock w with
  | [] => (Starved, [], w)
  | t :: rest =>
      let w' := mkWorld (HPAs w) (watch_streams w) (hpa_reads w) (scale_reads w)
                        (patch_replies w) (metric_reads w) rest in
      (Ret t, [], w')
  end.

Definition sleep (seconds : Z) : M unit := emit (Sleep seconds).

(** ** The registry, a dict *)

(** [d[k] = v]: a known key keeps its place, a new one goes last. *)
Fixpoint dict_set {V} (k : string) (v : V) (d : list (string * V)) : list (string * V) :=
  match d with
  | [] => [(k, v)]
  | (k', v') :: d' =>
      if String.eqb k k' then (k, v) :: d' else (k', v') :: dict_set k v d'
  end.

(** [d.pop(k, None)] *)
Fixpoint dict_pop {V} (k : string) (d : list (string * V)) : list (string * V) :=
  match d with
  | [] => []
  | (k', v') :: d' =>
      if String.eqb k k' then dict_pop k d' else (k', v') :: dict_pop k d'
  end.

(** [list(d.values())] *)
Definition dict_values {V} (d : list (string * V)) : list V := map snd d.

Definition HPAs_set (k : string) (h : HPA) : M unit := fun w =>
  (Ret tt, [],
   mkWorld (dict_set k h (HPAs w)) (watch_streams w) (hpa_reads w) (scale_reads w)
           (patch_replies w) (metric_reads w) (clock w)).

Definition HPAs_pop (k : string) : M unit := fun w =>
  (Ret tt, [],
   mkWorld (dict_pop k (HPAs w)) (watch_streams w) (hpa_reads w) (scale_reads w)
           (patch_replies w) (metric_reads w) (clock w)).

Definition HPAs_values : M (list HPA) := fun w => (Ret (dict_values (HPAs w)), [], w).

(** ** [main.py], function by function *)

Definition METRICS_ANNOTATION : string := "autoscaling.alpha.kubernetes.io/metrics".

(** l.122: [json.loads(hpa.metadata.annotations[...])] *)
Definition load_metrics (hpa : V1HorizontalPodAutoscaler) : py json :=
  match annotations (hpa_metadata hpa) with
  | None => inl TypeError
  | Some d =>
      match dict_get METRICS_ANNOTATION d with
      | None => inl KeyError
      | Some None => inl JSONDecodeError
      | Some (Some metrics) => inr metrics
      end
  end.

(** l.124: [next(m["object"] for m in metrics if m["type"] == "Object")],
    over the items of [metrics]. *)
Fixpoint next_object (ms : list json) : py json :=
  match ms with
  | [] => inl StopIteration
  | m :: rest =>
      (ty <~ subscript m "type" ;;
       if eq_str ty "Object" then subscript m "object" else next_object rest)%py
  end.

(** l.124-127, the body of the [try]: the custom metric and its target. *)
Definition custom_metric_and_target (metrics : json) : py (json * json) :=
  (ms <~ py_iter metrics ;;
   custom_metric <~ next_object ms ;;
   selector <~ dot_get custom_metric "selector" ;;
   _ <~ py_assert (negb (truthy selector)) ;;
   target <~ subscript custom_metric "target" ;;
   kind <~ subscript target "kind" ;;
   _ <~ py_assert (eq_str kind "Service") ;;
   inr (custom_metric, target))%py.

Definition build_metric_value_path (hpa : V1HorizontalPodAutoscaler) : M metric_path :=
  metrics <- lift (load_metrics hpa) ;;
  ' (custom_metric, target) <-
    try_except (lift (custom_metric_and_target metrics))
      (fun e =>
         match e with
         | StopIteration | AssertionError =>
             Some (log ERROR OnlyOneCustomMetric ;; raise e)
         | _ => None
         end) ;;
  let service_namespace := meta_namespace (hpa_metadata hpa) in
  service_name <- lift (subscript target "name") ;;
  metric_name <- lift (subscript custom_metric "metricName") ;;
  ret (mkPath service_namespace service_name metric_name).

Definition update_hpa (metadata : V1ObjectMeta)
    (scale_up_stabilization_window scale_down_stabilization_window : Z) : M unit :=
  let hpa_namespace := meta_namespace metadata in
  let hpa_name := meta_name metadata in
  let namespaced_name := (hpa_namespace ++ "/" ++ hpa_name)%string in
  try_except
    (hpa <- read_namespaced_horizontal_pod_autoscaler hpa_namespace hpa_name ;;
     path <- build_metric_value_path hpa ;;
     HPAs_set namespaced_name
       (mkHPA hpa_name hpa_namespace path
              (scale_target_ref_kind hpa) (scale_target_ref_name hpa)
              scale_up_stabilization_window scale_down_stabilization_window))
    (fun exc =>
       match exc with
       | ApiException status =>
           Some (if negb (status =? 404) then raise exc
                 else log INFO (HpaNotFound hpa_namespace hpa_name) ;;
                      HPAs_pop namespaced_name)
       | _ => None
       end).

(** The command line, after [parse_cli_args]. *)
Record Args : Type := mkArgs {
  hpa_namespace : string;
  hpa_label_selector : string;
  arg_scale_up_stabilization_window : Z;
  arg_scale_down_stabilization_window : Z
}.

(** l.79-88: the [for] over one stream. *)
Fixpoint for_event (args : Args) (events : list watch_event) (ending : option Z) : M unit :=
  match events with
  | [] =>
      match ending with
      | None => ret tt
      | Some status => raise (ApiException status)
      end
  | ev :: rest =>
      update_hpa (ev_metadata ev)
                 (arg_scale_up_stabilization_window args)
                 (arg_scale_down_stabilization_window args) ;;
      for_event args rest ending
  end.

(** l.76-91: the [while True], one round per stream the environment
    still has. *)
Fixpoint watch_hpa_rounds (rounds : nat) (args : Args) : M unit :=
  match rounds with
  | O => starved
  | S rounds' =>
      try_except
        (s <- open_stream (hpa_namespace args) (hpa_label_selector args) ;;
         for_event args (stream_events s) (stream_end s))
        (fun exc =>
           match exc with
           | ApiException status =>
               Some (if negb (status =? 410) then raise exc else ret tt)
           | _ => None
           end) ;;
      watch_hpa_rounds rounds' args
  end.

Definition watch_hpa (args : Args) : M unit :=
  log INFO (WillWatch (hpa_label_selector args) (hpa_namespace args)) ;;
  log INFO (ScaleUpWindowIs (arg_scale_up_stabilization_window args)) ;;
  log INFO (ScaleDownWindowIs (arg_scale_down_stabilization_window args)) ;;
  fun w => watch_hpa_rounds (List.length (watch_streams w)) args w.

(** [int(q)] for the value of a metric item. *)
Definition int_ (q : quantity) : py Z :=
  match q with
  | Integral n => inr n
  | NotIntegral => inl ValueError
  end.

(** [l[0]] *)
Definition item0 {A} (l : list A) : py A :=
  match l with
  | [] => inl IndexError
  | x :: _ => inr x
  end.

Definition get_needed_replicas (metric_value_path : metric_path) : M Z :=
  try_except
    (l <- request_GET metric_value_path ;;
     q <- lift (item0 (items l)) ;;
     v <- lift (int_ q) ;;
     ret (Z.min v 1))
    (fun exc =>
       match exc with
       | ApiException status =>
           Some (if (status =? 404) || (status =? 503) || (status =? 403)
                 then log ERROR (CouldNotGetMetric metric_value_path status) ;;
                      raise MetricNotFound
                 else raise exc)
       | _ => None
       end).

(** The local [scale] of [get_replicas] is bound only when the read
    returned: [None] is the unbound local. *)
Definition get_replicas (hpa : HPA) (read_scale : string -> string -> M V1Scale)
  : M (Z * Z) :=
  scale <-
    try_except
      (s <- read_scale (namespace hpa) (name hpa) ;; ret (Some s))
      (fun exc =>
         match exc with
         | ApiException status =>
             Some (if negb (status =? 404) then raise exc
                   else log WARNING (ReplicasTargetNotFound (namespace hpa) (name hpa)) ;;
                        ret None)
         | _ => None
         end) ;;
  match scale with
  | None => raise UnboundLocalError
  | Some s =>
      let current_replicas := status_replicas s in
      needed_replicas <- get_needed_replicas (metric_value_path hpa) ;;
      ret (current_replicas, needed_replicas)
  end.

Definition scaling_up_is_needed (current_replicas needed_replicas : Z) : bool :=
  (current_replicas <? needed_replicas) && (needed_replicas =? 1).

Definition scaling_down_is_needed (current_replicas needed_replicas : Z) : bool :=
  (current_replicas >? needed_replicas) && (needed_replicas =? 0).

(** [bool(n)] for an int *)
Definition bool_ (n : Z) : bool := negb (n =? 0).

(** l.219-224: the window the intent selects; [None] is the [else]
    branch, no intent. *)
Definition stabilization_window_of (hpa : HPA) (current_replicas needed_replicas : Z)
  : option Z :=
  if scaling_up_is_needed current_replicas needed_replicas
  then Some (scale_up_stabilization_window hpa)
  else if scaling_down_is_needed current_replicas needed_replicas
  then Some (scale_down_stabilization_window hpa)
  else None.

(** l.235-243: the [while time() < stabilization_end_time].  Every round
    takes one reading of the clock, so the readings the environment still
    has bound the number of rounds. *)
Fixpoint stabilization_loop (rounds : nat) (hpa : HPA)
    (read_scale : string -> string -> M V1Scale) (stabilization_end_time : Z) : M bool :=
  match rounds with
  | O => starved
  | S rounds' =>
      now <- time ;;
      if now <? stabilization_end_time then
        ' (current_replicas, needed_replicas) <- get_replicas hpa read_scale ;;
        if Bool.eqb (bool_ current_replicas) (bool_ needed_replicas)
        then log INFO (ScaleCanceled (target_kind hpa) (namespace hpa) (name hpa)) ;;
             ret false
        else sleep STABILIZATION_CHECK_INTERVAL ;;
             stabilization_loop rounds' hpa read_scale stabilization_end_time
      else ret true
  end.

Definition scaling_is_needed (hpa : HPA) (read_scale : string -> string -> M V1Scale)
  : M bool :=
  ' (current_replicas, needed_replicas) <- get_replicas hpa read_scale ;;
  match stabilization_window_of hpa current_replicas needed_replicas with
  | None => ret false
  | Some stabilization_window =>
      if negb (stabilization_window =? 0) then
        now <- time ;;
        let stabilization_end_time := now + stabilization_window in
        log INFO (WillBeScaled (target_kind hpa) (namespace hpa) (name hpa)
                               current_replicas needed_replicas) ;;
        fun w => stabilization_loop (List.length (clock w)) hpa read_scale
                                    stabilization_end_time w
      else ret true
  end.

(** [scale.spec.replicas = n] *)
Definition set_spec_replicas (scale : V1Scale) (n : Z) : V1Scale :=
  mkScale (scale_metadata scale) n (status_replicas scale) (status_selector scale).

(** l.183-195: the body of the [try] of [update_target], once
    [read_scale] and [patch_scale] are chosen. *)
Definition scale_if_needed (hpa : HPA)
    (read_scale : string -> string -> M V1Scale)
    (patch_scale : string -> string -> V1Scale -> M unit) : M unit :=
  needed <- scaling_is_needed hpa read_scale ;;
  if needed : bool then
    scale <- read_scale (namespace hpa) (name hpa) ;;
    ' (current_replicas, needed_replicas) <- get_replicas hpa read_scale ;;
    let scale := set_spec_replicas scale needed_replicas in
    patch_scale (namespace hpa) (name hpa) scale ;;
    log INFO (WasScaled (target_kind hpa) (namespace hpa) (name hpa)
                        current_replicas needed_replicas)
  else
    ' (current_replicas, needed_replicas) <- get_replicas hpa read_scale ;;
    log INFO (NoNeedToScale (target_kind hpa) (namespace hpa) (name hpa)
                            current_replicas needed_replicas).

(** l.196-201: the two [except] clauses of [update_target]. *)
Definition on_error (hpa : HPA) (exc : exn) : option (M unit) :=
  match exc with
  | ApiException status =>
      Some (if negb (status =? 404) then raise exc
            else log WARNING (TargetNotFound (target_kind hpa) (namespace hpa) (name hpa)))
  | MetricNotFound =>
      Some (log ERROR (WillNotUpdate (target_kind hpa) (namespace hpa) (target_name hpa)))
  | _ => None
  end.

Definition update_target_with (hpa : HPA)
    (read_scale : string -> string -> M V1Scale)
    (patch_scale : string -> string -> V1Scale -> M unit) : M unit :=
  try_except (scale_if_needed hpa read_scale patch_scale) (on_error hpa).

(** l.172-180: the [match] on [hpa.target_kind]; [None] is [case _]. *)
Definition workload_of (kind : string) : option workload :=
  if String.eqb kind "Deployment" then Some Deployment
  else if String.eqb kind "StatefulSet" then Some StatefulSet
  else None.

Definition update_target (hpa : HPA) : M unit :=
  match workload_of (target_kind hpa) with
  | Some k =>
      update_target_with hpa (read_namespaced_scale k) (patch_namespaced_scale k)
  | None => raise ValueError
  end.

(** l.62-63: [for hpa in list(HPAs.values()): update_target(hpa)] *)
Fixpoint for_hpa (hpas : list HPA) : M unit :=
  match hpas with
  | [] => ret tt
  | hpa :: rest => update_target hpa ;; for_hpa rest
  end.

(** l.61-64: [cycles] rounds of the [while True]. *)
Fixpoint watch_cycles (cycles : nat) : M unit :=
  match cycles with
  | O => ret tt
  | S cycles' =>
      hpas <- HPAs_values ;;
      for_hpa hpas ;;
      sleep SYNC_INTERVAL ;;
      watch_cycles cycles'
  end.

(** What became of the process. *)
Inductive process : Type :=
| Exited (code : Z)
| Running
| Unknown.

(** l.59-67: the thread of [watch_metrics], watched for [cycles] rounds.
    Every exception of [exn] is an [Exception]: the handler logs it and
    ends the process with [os._exit(1)]. *)
Definition _watch (cycles : nat) (w : World) : process * list event * World :=
  match watch_cycles cycles w with
  | (Ret _, evs, w') => (Running, evs, w')
  | (Raise exc, evs, w') => (Exited 1, evs ++ [Log ERROR (ExitingBecauseOf exc)], w')
  | (Starved, evs, w') => (Unknown, evs, w')
  end.


(** ** Observations on a run *)

Definition is_patch (e : event) : bool :=
  match e with
  | PatchScale _ _ _ _ _ => true
  | _ => false
  end.

(** A metric fetch answered not-found, unavailable or forbidden. *)
Definition metric_unavailable (e : event) : bool :=
  match e with
  | GetMetric _ (Failed status) => (status =? 404) || (status =? 503) || (status =? 403)
  | _ => false
  end.

Definition is_metric_error_log (e : event) : bool :=
  match e with
  | Log ERROR (CouldNotGetMetric _ _) => true
  | _ => false
  end.

(** A computation that leaves the registry alone, patches nothing, and
    raises [MetricNotFound] exactly when one of its metric fetches was
    answered not-found, unavailable or forbidden (and then logged it). *)
Definition quiet {A} (m : M A) : Prop :=
  forall w r evs w', m w = (r, evs, w') ->
    HPAs w' = HPAs w
    /\ existsb is_patch evs = false
    /\ (r = Raise MetricNotFound ->
        existsb metric_unavailable evs = true
        /\ existsb is_metric_error_log evs = true)
    /\ (r <> Raise MetricNotFound -> existsb metric_unavailable evs = false).

(** The events of a run. *)
Definition events_of {R} (run : R * list event * World) : list event := snd (fst run).

(** The apply step of [update_target] (l.184-187) was reached and issued
    its patch: [evs] are the events of the decision, then the read of
    l.184, then the events of the [get_replicas] of l.185, then the patch
    of l.187 whose body is the object read at l.184 with [spec.replicas]
    set to the value returned at l.185; nothing else in [evs] is a
    patch. *)
Definition applied (hpa : HPA) (k : workload) (w : World) (evs : list event) : Prop :=
  exists evs0 w0 scale w1 current needed evs2 w2 answer tail,
    scaling_is_needed hpa (read_namespaced_scale k) w = (Ret true, evs0, w0)
    /\ read_namespaced_scale k (namespace hpa) (name hpa) w0
       = (Ret scale, [ReadScale k (namespace hpa) (name hpa) (Ok scale)], w1)
    /\ get_replicas hpa (read_namespaced_scale k) w1 = (Ret (current, needed), evs2, w2)
    /\ evs = evs0 ++ [ReadScale k (namespace hpa) (name hpa) (Ok scale)] ++ evs2
                  ++ [PatchScale k (namespace hpa) (name hpa)
                                 (set_spec_replicas scale needed) answer] ++ tail
    /\ existsb is_patch evs0 = false
    /\ existsb is_patch evs2 = false
    /\ existsb is_patch tail = false.

(** Every patch among [evs] asks for at most one replica. *)
Definition patches_at_most_one (evs : list event) : Prop :=
  Forall (fun e =>
            match e with
            | PatchScale _ _ _ body _ => spec_replicas body <= 1
            | _ => True
            end) evs.

(** The reply to the last scale read made before the first patch of
    [evs], with the body of that patch. *)
Fixpoint read_before_patch (last : option V1Scale) (evs : list event)
  : option (V1Scale * V1Scale) :=
  match evs with
  | [] => None
  | ReadScale _ _ _ (Ok s) :: rest => read_before_patch (Some s) rest
  | PatchScale _ _ _ body _ :: _ =>
      match last with
      | Some s => Some (s, body)
      | None => None
      end
  | _ :: rest => read_before_patch last rest
  end.

(** During the wait that ends at [end_time] and starts in world [w], some
    poll reads replica counts with equal truth values: every poll up to
    it falls before [end_time] and returns, and the earlier ones read
    unequal truth values. *)
Inductive poll_reads_equal (hpa : HPA) (read_scale : string -> string -> M V1Scale)
    (end_time : Z) : World -> Prop :=
| equal_now w now w1 current needed evs w2 :
    time w = (Ret now, [], w1) ->
    now < end_time ->
    get_replicas hpa read_scale w1 = (Ret (current, needed), evs, w2) ->
    bool_ current = bool_ needed ->
    poll_reads_equal hpa read_scale end_time w
| equal_later w now w1 current needed evs w2 :
    time w = (Ret now, [], w1) ->
    now < end_time ->
    get_replicas hpa read_scale w1 = (Ret (current, needed), evs, w2) ->
    bool_ current <> bool_ needed ->
    poll_reads_equal hpa read_scale end_time w2 ->
    poll_reads_equal hpa read_scale end_time w.

(** ** Discovery: resolution and the registry over time *)

(** [build_metric_value_path] does not look at the world: its outcome and
    its log lines for one HPA object. *)
Definition resolution (hpa : V1HorizontalPodAutoscaler) : result metric_path * list event :=
  fst (build_metric_value_path hpa (mkWorld [] [] [] [] [] [] [])).

Definition is_api_exception (e : exn) : bool :=
  match e with
  | ApiException _ => true
  | _ => false
  end.

(** [m] is an entry of type "Object" carrying [cm]. *)
Definition object_entry (m cm : json) : Prop :=
  exists ty, subscript m "type" = inr ty /\ eq_str ty "Object" = true
             /\ subscript m "object" = inr cm.

(** [m] is an entry of another type. *)
Definition other_entry (m : json) : Prop :=
  exists ty, subscript m "type" = inr ty /\ eq_str ty "Object" = false.

(** The shapes of a metric list that are turned down: no entry of type
    "Object"; or a first such entry with a selector; or a first such entry
    whose target is not a Service. *)
Inductive rejected_shape : list json -> Prop :=
| no_object_entry ms :
    Forall other_entry ms ->
    rejected_shape ms
| selector_present pre m cm selector post :
    Forall other_entry pre ->
    object_entry m cm ->
    dot_get cm "selector" = inr selector ->
    truthy selector = true ->
    rejected_shape (pre ++ m :: post)
| target_not_service pre m cm target kind post :
    Forall other_entry pre ->
    object_entry m cm ->
    subscript cm "target" = inr target ->
    subscript target "kind" = inr kind ->
    eq_str kind "Service" = false ->
    rejected_shape (pre ++ m :: post).

(** The key of the registry: [f"{hpa_namespace}/{hpa_name}"]. *)
Definition namespaced_name (metadata : V1ObjectMeta) : string :=
  (meta_namespace metadata ++ "/" ++ meta_name metadata)%string.

(** The two threads share the registry.  One action is the handling of
    one watch event by the main thread, or one call of [update_target] by
    the thread of [_watch], on an HPA of an earlier snapshot. *)
Inductive action : Type :=
| Discover (ev : watch_event)
| Reconcile (hpa : HPA).

Definition step (args : Args) (a : action) : M unit :=
  match a with
  | Discover ev =>
      update_hpa (ev_metadata ev)
                 (arg_scale_up_stabilization_window args)
                 (arg_scale_down_stabilization_window args)
  | Reconcile hpa => update_target hpa
  end.

(** The worlds after each action, up to the first one that does not
    return. *)
Fixpoint worlds_after (args : Args) (acts : list action) (w : World) : list World :=
  match acts with
  | [] => []
  | a :: rest =>
      match step args a w with
      | (Ret _, _, w') => w' :: worlds_after args rest w'
      | (_, _, w') => [w']
      end
  end.

(** [K] is not a key of the registry: no snapshot [list(HPAs.values())]
    taken in [w] holds its record. *)
Definition untracked (K : string) (w : World) : Prop := dict_get K (HPAs w) = None.

(** Action [a], run in [w], handles an event for [K] whose re-read finds
    the HPA with a metric annotation that resolves. *)
Definition readmits (K : string) (a : action) (w : World) : Prop :=
  match a with
  | Discover ev =>
      namespaced_name (ev_metadata ev) = K
      /\ exists hpa rest path,
           hpa_reads w = Ok hpa :: rest /\ fst (resolution hpa) = Ret path
  | Reconcile _ => False
  end.

Fixpoint never_readmitted (args : Args) (K : string) (acts : list action) (w : World)
  : Prop :=
  match acts with
  | [] => True
  | a :: rest =>
      ~ readmits K a w
      /\ match step args a w with
         | (Ret _, _, w') => never_readmitted args K rest w'
         | _ => True
         end
  end.

(** ** Sample objects *)

Module Sample.

Definition meta (version : string) : V1ObjectMeta := mkMeta "ns" "a" version None.

(** The scale of [ns/a] with [n] replicas, at some resource version. *)
Definition scale (version : string) (n : Z) : V1Scale :=
  mkScale (meta version) n n "app=a".

Definition metric (v : Z) : reply MetricValueList :=
  Ok (mkMetricValueList [Integral v]).

Definition path : metric_path := mkPath "ns" (JStr "svc") (JStr "foo_metric").

(** [ns/a], a Deployment, with the two windows. *)
Definition hpa (up down : Z) : HPA := mkHPA "a" "ns" path "Deployment" "a" up down.

(** A world for the reconciliation side. *)
Definition cluster (scales : list (reply V1Scale)) (patches : list (reply unit))
    (metrics : list (reply MetricValueList)) (times : list Z) : World :=
  mkWorld [] [] [] scales patches metrics times.

(** One Object entry on Service [svc]. *)
Definition entry (svc : string) : json :=
  JObj [("type", JStr "Object");
        ("object", JObj [("target", JObj [("kind", JStr "Service"); ("name", JStr svc)]);
                         ("metricName", JStr "foo_metric")])].

(** The HPA [ns/a] as the API returns it, with its parsed annotation. *)
Definition hpa_object (metrics : option json) : V1HorizontalPodAutoscaler :=
  mkV1HPA (mkMeta "ns" "a" "1" (Some [(METRICS_ANNOTATION, metrics)])) "Deployment" "a".

(** A world for the discovery side. *)
Definition api (registry : list (string * HPA)) (streams : list watch_stream)
    (reads : list (reply V1HorizontalPodAutoscaler)) : World :=
  mkWorld registry streams reads [] [] [] [].

Definition args : Args := mkArgs "ns" "" 0 0.

End Sample.

(** ** Further observations *)

(** The wait that ends at [end_time] and starts in world [w] runs out:
    every poll before [end_time] returns replica counts with unequal
    truth values, until a reading of the clock is not before [end_time]. *)
Inductive wait_runs_out (hpa : HPA) (read_scale : string -> string -> M V1Scale)
    (end_time : Z) : World -> Prop :=
| runs_out_now w now w1 :
    time w = (Ret now, [], w1) ->
    end_time <= now ->
    wait_runs_out hpa read_scale end_time w
| runs_out_later w now w1 current needed evs w2 :
    time w = (Ret now, [], w1) ->
    now < end_time ->
    get_replicas hpa read_scale w1 = (Ret (current, needed), evs, w2) ->
    bool_ current <> bool_ needed ->
    wait_runs_out hpa read_scale end_time w2 ->
    wait_runs_out hpa read_scale end_time w.

(** The record [update_hpa] stores for an event with metadata
    [metadata], from the HPA object it read and the windows it was
    given (l.102-110). *)
Definition record_of (metadata : V1ObjectMeta) (hpa : V1HorizontalPodAutoscaler)
    (path : metric_path) (up down : Z) : HPA :=
  mkHPA (meta_name metadata) (meta_namespace metadata) path
        (scale_target_ref_kind hpa) (scale_target_ref_name hpa) up down.


(** The world once [w.stream(...)] has been opened. *)
Definition after_open (w : World) : World :=
  mkWorld (HPAs w) (tl (watch_streams w)) (hpa_reads w) (scale_reads w)
          (patch_replies w) (metric_reads w) (clock w).

(** The outcomes of the [for] over one stream after which [watch_hpa]
    opens the next stream (l.89-91): the stream ended, or an
    [ApiException] of status 410 was raised. *)
Definition reopens (r : result unit) : bool :=
  match r with
  | Ret _ => true
  | Raise (ApiException status) => status =? 410
  | _ => false
  end.

(** The events of the discovery side. *)
Definition is_discovery_event (e : event) : bool :=
  match e with
  | OpenWatch _ _ | ReadHPA _ _ _ | Log _ _ => true
  | _ => false
  end.

(** The replies and readings of the reconciliation side are as they
    were. *)
Definition workloads_untouched (w w' : World) : Prop :=
  scale_reads w' = scale_reads w
  /\ patch_replies w' = patch_replies w
  /\ metric_reads w' = metric_reads w
  /\ clock w' = clock w.

(** The registry and the replies of the discovery side are as they
    were. *)
Definition discovery_untouched (w w' : World) : Prop :=
  HPAs w' = HPAs w
  /\ watch_streams w' = watch_streams w
  /\ hpa_reads w' = hpa_reads w.

(** An event of the evaluation of [hpa] on workload kind [k]: scale reads
    and patches go to [hpa.namespace] and [hpa.name], metric fetches to
    [hpa.metric_value_path], sleeps last one check interval; the watch
    and the HPA API are not called. *)
Definition addressed_to (hpa : HPA) (k : workload) (e : event) : Prop :=
  match e with
  | ReadScale k' ns nm _ => k' = k /\ ns = namespace hpa /\ nm = name hpa
  | PatchScale k' ns nm _ _ => k' = k /\ ns = namespace hpa /\ nm = name hpa
  | GetMetric path _ => path = metric_value_path hpa
  | Sleep seconds => seconds = STABILIZATION_CHECK_INTERVAL
  | Log _ _ => True
  | OpenWatch _ _ | ReadHPA _ _ _ => False
  end.

Definition reconciles {A} (hpa : HPA) (k : workload) (m : M A) : Prop :=
  forall w r evs w', m w = (r, evs, w') ->
    Forall (addressed_to hpa k) evs /\ discovery_untouched w w'.

(** [watch_hpa_rounds rounds args], started in [w], comes to handle the
    event [ev]: it does so in world [w1], after the events [evs].  The
    event is in the stream opened first, after events that were all
    handled, or in a later stream, opened after the ones before it ended
    or expired. *)
Inductive reaches (args : Args) : nat -> World -> watch_event -> World -> list event -> Prop :=
| reaches_in_stream rounds w s streams pre ev post evs1 w1 :
    watch_streams w = s :: streams ->
    stream_events s = pre ++ ev :: post ->
    for_event args pre None (after_open w) = (Ret tt, evs1, w1) ->
    reaches args (S rounds) w ev w1
            (OpenWatch (hpa_namespace args) (hpa_label_selector args) :: evs1)
| reaches_in_later_stream rounds w s streams r1 evs1 w2 ev w1 evs :
    watch_streams w = s :: streams ->
    for_event args (stream_events s) (stream_end s) (after_open w) = (r1, evs1, w2) ->
    reopens r1 = true ->
    reaches args rounds w2 ev w1 evs ->
    reaches args (S rounds) w ev w1
            ((OpenWatch (hpa_namespace args) (hpa_label_selector args) :: evs1) ++ evs).

(** Along [acts], run from [w], every event for [K] re-reads an HPA
    whose metric annotation has one of the shapes that are turned down. *)
Fixpoint always_rejected (args : Args) (K : string) (acts : list action) (w : World)
  : Prop :=
  match acts with
  | [] => True
  | a :: rest =>
      match a with
      | Discover ev =>
          namespaced_name (ev_metadata ev) = K ->
          exists hpa reads ms,
            hpa_reads w = Ok hpa :: reads
            /\ load_metrics hpa = inr (JArr ms)
            /\ rejected_shape ms
      | Reconcile _ => True
      end
      /\ match step args a w with
         | (Ret _, _, w') => always_rejected args K rest w'
         | _ => True
         end
  end.
(** * Properties *)

Unset Implicit Arguments.

(** ** Desired replicas and the two predicates *)



Lemma scaling_is_needed_no_intent hpa read_scale w c d evs w' :
  get_replicas hpa read_scale w = (Ret (c, d), evs, w') ->
  stabilization_window_of hpa c d = None ->
  scaling_is_needed hpa read_scale w = (Ret false, evs, w').
Proof.
  intros Hget Hnone. unfold scaling_is_needed, bind. rewrite Hget, Hnone.
  unfold ret. rewrite app_nil_r. reflexivity.
Qed.

(** ** Window zero *)

(** C7. When the window selected by the detected intent is zero,
    [scaling_is_needed] returns [True] right after its first read: it
    makes no further call, takes no reading of the clock and emits
    nothing more, so no poll and no cancellation check happen. *)
Theorem C7_zero_window_confirms_immediately (hpa : HPA)
    (read_scale : string -> string -> M V1Scale) (w : World)
    (current needed : Z) (evs : list event) (w1 : World) :
  get_replicas hpa read_scale w = (Ret (current, needed), evs, w1) ->
  stabilization_window_of hpa current needed = Some 0 ->
  scaling_is_needed hpa read_scale w = (Ret true, evs, w1).
Proof.
  intros Hget Hwin. unfold scaling_is_needed, bind. rewrite Hget, Hwin.
  simpl. unfold ret. rewrite app_nil_r. reflexivity.
Qed.

(** One replica runs, the metric is 0 and the scale-down window is 0. *)
Lemma C7_witness :
  let w := Sample.cluster [Ok (Sample.scale "1" 1)] [] [Sample.metric 0] [] in
  scaling_is_needed (Sample.hpa 15 0) (read_namespaced_scale Deployment) w
  = (Ret true,
     [ReadScale Deployment "ns" "a" (Ok (Sample.scale "1" 1));
      GetMetric Sample.path (Sample.metric 0)],
     Sample.cluster [] [] [] []).
Proof.
  intros w.
  exact (C7_zero_window_confirms_immediately (Sample.hpa 15 0)
           (read_namespaced_scale Deployment) w 1 0 _ _ eq_refl eq_refl).
Defined.

(** ** Quiet computations *)

Section Quiet.

(* the outcome of the first part is the outcome of the whole *)
Ltac propagated :=
  match goal with
  | Hreg : HPAs _ = HPAs _, Hpatch : existsb is_patch _ = false,
    Hmnf : _ = Raise MetricNotFound -> _, Hclean : _ <> Raise MetricNotFound -> _ |- _ =>
      split; [exact Hreg|]; split; [exact Hpatch|]; split;
      [ intros Hr; apply Hmnf; congruence
      | intros Hr; apply Hclean; congruence ]
  end.

Ltac trivially_quiet :=
  simpl; repeat split; auto; try congruence; try (intros; congruence).

Lemma quiet_ret {A} (a : A) : quiet (ret a).
Proof.
  intros w r evs w' H. inversion H; subst. trivially_quiet.
Qed.

Lemma quiet_raise {A} (e : exn) : e <> MetricNotFound -> quiet (@raise A e).
Proof.
  intros He w r evs w' H. inversion H; subst. trivially_quiet.
Qed.

Lemma quiet_starved {A} : quiet (@starved A).
Proof.
  intros w r evs w' H. inversion H; subst. trivially_quiet.
Qed.

Lemma quiet_emit (ev : event) :
  is_patch ev = false -> metric_unavailable ev = false -> quiet (emit ev).
Proof.
  intros Hp Hm w r evs w' H. inversion H; subst. simpl. rewrite Hp, Hm. trivially_quiet.
Qed.

Lemma quiet_log lvl msg : quiet (log lvl msg).
Proof. apply quiet_emit; reflexivity. Qed.

Lemma quiet_sleep s : quiet (sleep s).
Proof. apply quiet_emit; reflexivity. Qed.

Lemma quiet_lift {A} (x : py A) : x <> inl MetricNotFound -> quiet (lift x).
Proof.
  intros Hx. destruct x as [e|a]; simpl.
  - apply quiet_raise. congruence.
  - apply quiet_ret.
Qed.

Lemma quiet_time : quiet time.
Proof.
  intros w r evs w' H. unfold time in H.
  destruct (clock w); inversion H; subst; trivially_quiet.
Qed.

Lemma quiet_read_namespaced_scale k ns nm : quiet (read_namespaced_scale k ns nm).
Proof.
  intros w r evs w' H. unfold read_namespaced_scale in H.
  destruct (scale_reads w) as [|[a|st] rest]; inversion H; subst; trivially_quiet.
Qed.

Lemma quiet_bind {A B} (m : M A) (f : A -> M B) :
  quiet m -> (forall a, quiet (f a)) -> quiet (bind m f).
Proof.
  intros Hm Hf w r evs w' H. unfold bind in H.
  destruct (m w) as [[r1 evs1] w1] eqn:E1.
  destruct (Hm _ _ _ _ E1) as (Hreg1 & Hpatch1 & Hmnf1 & Hclean1).
  destruct r1 as [a|e|].
  - destruct (f a w1) as [[r2 evs2] w2] eqn:E2.
    destruct (Hf a _ _ _ _ E2) as (Hreg2 & Hpatch2 & Hmnf2 & Hclean2).
    inversion H; subst. rewrite !existsb_app, Hpatch1, Hpatch2.
    rewrite Hclean1 by discriminate. simpl.
    split; [congruence|]. split; [reflexivity|]. split.
    + intros Hr. destruct (Hmnf2 Hr) as [Hu He]. rewrite Hu, He, orb_true_r. auto.
    + exact Hclean2.
  - inversion H; subst. propagated.
  - inversion H; subst. propagated.
Qed.

(** A [try] whose handlers do not catch [MetricNotFound]. *)
Lemma quiet_try_except {A} (m : M A) (handler : exn -> option (M A)) :
  quiet m ->
  handler MetricNotFound = None ->
  (forall e h, handler e = Some h -> quiet h) ->
  quiet (try_except m handler).
Proof.
  intros Hm Hnone Hh w r evs w' H. unfold try_except in H.
  destruct (m w) as [[r1 evs1] w1] eqn:E1.
  destruct (Hm _ _ _ _ E1) as (Hreg1 & Hpatch1 & Hmnf1 & Hclean1).
  destruct r1 as [a|e|]; try (inversion H; subst; propagated).
  destruct (handler e) as [h|] eqn:Eh.
  - assert (He : e <> MetricNotFound) by (intros ->; congruence).
    destruct (h w1) as [[r2 evs2] w2] eqn:E2.
    destruct (Hh _ _ Eh _ _ _ _ E2) as (Hreg2 & Hpatch2 & Hmnf2 & Hclean2).
    inversion H; subst. rewrite !existsb_app, Hpatch1, Hpatch2.
    rewrite Hclean1 by congruence. simpl.
    split; [congruence|]. split; [reflexivity|]. split.
    + intros Hr. destruct (Hmnf2 Hr) as [Hu He']. rewrite Hu, He', orb_true_r. auto.
    + exact Hclean2.
  - inversion H; subst. propagated.
Qed.

Lemma quiet_get_needed_replicas path : quiet (get_needed_replicas path).
Proof.
  intros w r evs w' H.
  unfold get_needed_replicas, try_except, bind, request_GET in H.
  destruct (metric_reads w) as [|[l|st] rest].
  - inversion H; subst; trivially_quiet.
  - destruct l as [[|[n|] more]]; simpl in H; inversion H; subst; trivially_quiet.
  - simpl in H.
    destruct ((st =? 404) || (st =? 503) || (st =? 403)) eqn:Est;
      simpl in H; inversion H; subst; simpl; rewrite Est; trivially_quiet.
Qed.

Lemma quiet_get_replicas hpa read_scale :
  (forall ns nm, quiet (read_scale ns nm)) -> quiet (get_replicas hpa read_scale).
Proof.
  intros Hrs. unfold get_replicas. apply quiet_bind.
  - apply quiet_try_except.
    + apply quiet_bind; [apply Hrs | intros; apply quiet_ret].
    + reflexivity.
    + intros e h Hh. destruct e; try discriminate. inversion Hh; subst.
      destruct (negb (status =? 404)).
      * apply quiet_raise. discriminate.
      * apply quiet_bind; [apply quiet_log | intros; apply quiet_ret].
  - intros [s|].
    + apply quiet_bind; [apply quiet_get_needed_replicas | intros; apply quiet_ret].
    + apply quiet_raise. discriminate.
Qed.

Lemma quiet_stabilization_loop rounds hpa read_scale end_time :
  (forall ns nm, quiet (read_scale ns nm)) ->
  quiet (stabilization_loop rounds hpa read_scale end_time).
Proof.
  intros Hrs. induction rounds as [|rounds IH]; simpl.
  - apply quiet_starved.
  - apply quiet_bind; [apply quiet_time|]. intros now.
    destruct (now <? end_time); [|apply quiet_ret].
    apply quiet_bind; [apply quiet_get_replicas; exact Hrs|]. intros [c n].
    destruct (Bool.eqb (bool_ c) (bool_ n)).
    + apply quiet_bind; [apply quiet_log | intros; apply quiet_ret].
    + apply quiet_bind; [apply quiet_sleep | intros; exact IH].
Qed.

Lemma quiet_scaling_is_needed hpa read_scale :
  (forall ns nm, quiet (read_scale ns nm)) ->
  quiet (scaling_is_needed hpa read_scale).
Proof.
  intros Hrs. unfold scaling_is_needed.
  apply quiet_bind; [apply quiet_get_replicas; exact Hrs|]. intros [c n].
  destruct (stabilization_window_of hpa c n) as [window|]; [|apply quiet_ret].
  destruct (negb (window =? 0)); [|apply quiet_ret].
  apply quiet_bind; [apply quiet_time|]. intros now.
  apply quiet_bind; [apply quiet_log|]. intros _.
  intros w r evs w' H. exact (quiet_stabilization_loop _ hpa read_scale _ Hrs _ _ _ _ H).
Qed.

End Quiet.

(** ** The shape of a run of [update_target] *)

Lemma read_namespaced_scale_ret k ns nm w s evs w' :
  read_namespaced_scale k ns nm w = (Ret s, evs, w') ->
  evs = [ReadScale k ns nm (Ok s)]
  /\ clock w' = clock w
  /\ exists rest, scale_reads w = Ok s :: rest.
Proof.
  unfold read_namespaced_scale. intros H.
  destruct (scale_reads w) as [|[a|st] rest]; inversion H; subst; simpl.
  repeat split. eexists; reflexivity.
Qed.

Lemma patch_namespaced_scale_run k ns nm body w r evs w' :
  patch_namespaced_scale k ns nm body w = (r, evs, w') ->
  HPAs w' = HPAs w
  /\ r <> Raise MetricNotFound
  /\ (evs = [] \/ exists answer, evs = [PatchScale k ns nm body answer]).
Proof.
  unfold patch_namespaced_scale. intros H.
  destruct (patch_replies w) as [|[a|st] rest]; inversion H; subst; simpl;
    (split; [reflexivity|]); (split; [discriminate|]); eauto.
Qed.

Lemma get_needed_replicas_at_most_one path w n evs w' :
  get_needed_replicas path w = (Ret n, evs, w') -> n <= 1.
Proof.
  unfold get_needed_replicas, try_except, bind, request_GET. intros H.
  destruct (metric_reads w) as [|[l|st] rest]; simpl in H.
  - discriminate.
  - destruct l as [[|[v|] more]]; simpl in H; inversion H; subst. lia.
  - destruct ((st =? 404) || (st =? 503) || (st =? 403)); simpl in H; discriminate.
Qed.

Lemma get_replicas_at_most_one hpa read_scale w c n evs w' :
  get_replicas hpa read_scale w = (Ret (c, n), evs, w') -> n <= 1.
Proof.
  unfold get_replicas, bind at 1. intros H.
  destruct (try_except _ _ w) as [[[[s|]|e|] evs1] w1]; try discriminate.
  unfold bind in H.
  destruct (get_needed_replicas (metric_value_path hpa) w1) as [[[d|e|] evs2] w2] eqn:E;
    inversion H; subst.
  exact (get_needed_replicas_at_most_one _ _ _ _ _ E).
Qed.

Lemma scale_if_needed_run hpa k w r evs w' :
  scale_if_needed hpa (read_namespaced_scale k) (patch_namespaced_scale k) w = (r, evs, w') ->
  HPAs w' = HPAs w
  /\ (r = Raise MetricNotFound ->
      existsb metric_unavailable evs = true
      /\ existsb is_metric_error_log evs = true
      /\ existsb is_patch evs = false)
  /\ (r <> Raise MetricNotFound -> existsb metric_unavailable evs = false)
  /\ (existsb is_patch evs = false \/ applied hpa k w evs).
Proof.
  intros H. unfold scale_if_needed, bind in H.
  pose proof (quiet_read_namespaced_scale k) as Hrs.
  assert (Hrs' : forall ns nm, quiet (read_namespaced_scale k ns nm)) by (intros; apply Hrs).
  destruct (scaling_is_needed hpa (read_namespaced_scale k) w) as [[r0 evs0] w0] eqn:E0.
  destruct (quiet_scaling_is_needed hpa _ Hrs' _ _ _ _ E0) as (Hreg0 & Hp0 & Hm0 & Hc0).
  destruct r0 as [[|]|e|].
  - (* confirmed: l.184-190 *)
    destruct (read_namespaced_scale k (namespace hpa) (name hpa) w0) as [[r1 evs1] w1] eqn:E1.
    destruct (Hrs _ _ _ _ _ _ E1) as (Hreg1 & Hp1 & Hm1 & Hc1).
    specialize (Hc0 ltac:(discriminate)).
    destruct r1 as [scale|e|].
    + destruct (read_namespaced_scale_ret _ _ _ _ _ _ _ E1) as (Hevs1 & _ & _).
      destruct (get_replicas hpa (read_namespaced_scale k) w1) as [[r2 evs2] w2] eqn:E2.
      destruct (quiet_get_replicas hpa _ Hrs' _ _ _ _ E2) as (Hreg2 & Hp2 & Hm2 & Hc2).
      specialize (Hc1 ltac:(discriminate)).
      destruct r2 as [[current needed]|e|].
      * destruct (patch_namespaced_scale k (namespace hpa) (name hpa)
                    (set_spec_replicas scale needed) w2) as [[r3 evs3] w3] eqn:E3.
        destruct (patch_namespaced_scale_run _ _ _ _ _ _ _ _ E3) as (Hreg3 & Hr3 & Hevs3).
        specialize (Hc2 ltac:(discriminate)).
        assert (Hreg : HPAs w3 = HPAs w) by congruence.
        destruct Hevs3 as [-> | [answer ->]].
        -- (* the environment had no answer to the patch *)
           destruct r3 as [[]|e|]; inversion H; subst;
             (split; [exact Hreg|]); rewrite ?app_nil_r, ?existsb_app, ?Hp0, ?Hp1, ?Hp2,
               ?Hc0, ?Hc1, ?Hc2; simpl;
             (split; [intros Hr; congruence|]); split; auto.
        -- assert (Happ : forall tail, existsb is_patch tail = false ->
                     applied hpa k w (evs0 ++ evs1 ++ evs2
                        ++ [PatchScale k (namespace hpa) (name hpa)
                              (set_spec_replicas scale needed) answer] ++ tail)).
           { intros tail Htail. subst evs1.
             exists evs0, w0, scale, w1, current, needed, evs2, w2, answer, tail.
             repeat split; auto. }
           destruct r3 as [[]|e|]; inversion H; subst;
             (split; [exact Hreg|]).
           ++ split; [intros Hr; discriminate|]. split.
              ** intros _. rewrite !existsb_app, Hc0, Hc1, Hc2. reflexivity.
              ** right. exact (Happ [Log INFO _] eq_refl).
           ++ split; [intros Hr; congruence|]. split.
              ** intros _. rewrite !existsb_app, Hc0, Hc1, Hc2. reflexivity.
              ** right. exact (Happ [] eq_refl).
           ++ split; [intros Hr; discriminate|]. split.
              ** intros _. rewrite !existsb_app, Hc0, Hc1, Hc2. reflexivity.
              ** right. exact (Happ [] eq_refl).
      * inversion H; subst. split; [congruence|].
        rewrite !existsb_app, Hp0, Hp1, Hp2, Hc0, Hc1. simpl. split.
        -- intros Hr. destruct Hm2 as [Hu He]; [congruence|]. rewrite Hu, He, ?orb_true_r. auto.
        -- split; [|auto]. intros Hr. apply Hc2. congruence.
      * inversion H; subst. split; [congruence|].
        rewrite !existsb_app, Hp0, Hp1, Hp2, Hc0, Hc1. simpl. split.
        -- intros Hr. discriminate.
        -- split; [|auto]. intros _. apply Hc2. discriminate.
    + inversion H; subst. split; [congruence|].
      rewrite !existsb_app, Hp0, Hp1, Hc0. simpl. split.
      -- intros Hr. destruct Hm1 as [Hu He]; [congruence|]. rewrite Hu, He, ?orb_true_r. auto.
      -- split; [|auto]. intros Hr. apply Hc1. congruence.
    + inversion H; subst. split; [congruence|].
      rewrite !existsb_app, Hp0, Hp1, Hc0. simpl. split.
      -- intros Hr. discriminate.
      -- split; [|auto]. intros _. apply Hc1. discriminate.
  - (* not needed: l.192-195 *)
    destruct (get_replicas hpa (read_namespaced_scale k) w0) as [[r2 evs2] w2] eqn:E2.
    destruct (quiet_get_replicas hpa _ Hrs' _ _ _ _ E2) as (Hreg2 & Hp2 & Hm2 & Hc2).
    specialize (Hc0 ltac:(discriminate)).
    destruct r2 as [[current needed]|e|]; inversion H; subst;
      (split; [congruence|]); rewrite ?existsb_app, ?Hp0, ?Hp2, ?Hc0; simpl.
    + rewrite Hc2 by discriminate. split; [intros Hr; discriminate|]. split; auto.
    + split.
      * intros Hr. destruct Hm2 as [Hu He]; [congruence|]. rewrite Hu, He, ?orb_true_r. auto.
      * split; [|auto]. intros Hr. apply Hc2. congruence.
    + split; [intros Hr; discriminate|]. split; [|auto]. intros _. apply Hc2. discriminate.
  - inversion H; subst. split; [exact Hreg0|]. split.
    + intros Hr. destruct Hm0 as [Hu He]; [congruence|]. auto.
    + split; [|auto]. intros Hr. apply Hc0. congruence.
  - inversion H; subst. split; [exact Hreg0|]. split.
    + intros Hr. discriminate.
    + split; [|auto]. intros _. apply Hc0. discriminate.
Qed.

Lemma applied_app hpa k w evs extra :
  applied hpa k w evs -> existsb is_patch extra = false -> applied hpa k w (evs ++ extra).
Proof.
  intros (evs0 & w0 & scale & w1 & current & needed & evs2 & w2 & answer & tail
          & H0 & H1 & H2 & Hevs & Hp0 & Hp2 & Hpt) Hextra.
  exists evs0, w0, scale, w1, current, needed, evs2, w2, answer, (tail ++ extra).
  repeat split; auto.
  - rewrite Hevs, <- !app_assoc. reflexivity.
  - rewrite existsb_app, Hpt, Hextra. reflexivity.
Qed.

Lemma update_target_with_run hpa k w r evs w' :
  update_target_with hpa (read_namespaced_scale k) (patch_namespaced_scale k) w
  = (r, evs, w') ->
  HPAs w' = HPAs w
  /\ (existsb metric_unavailable evs = true ->
      r = Ret tt
      /\ existsb is_patch evs = false
      /\ existsb is_metric_error_log evs = true
      /\ In (Log ERROR (WillNotUpdate (target_kind hpa) (namespace hpa) (target_name hpa))) evs)
  /\ (existsb is_patch evs = false \/ applied hpa k w evs).
Proof.
  intros H. unfold update_target_with, try_except in H.
  destruct (scale_if_needed hpa (read_namespaced_scale k) (patch_namespaced_scale k) w)
    as [[r1 evs1] w1] eqn:E1.
  destruct (scale_if_needed_run _ _ _ _ _ _ E1) as (Hreg & Hm & Hc & Hpatch).
  destruct r1 as [[]|e|].
  - inversion H; subst. split; [exact Hreg|]. split; [|exact Hpatch].
    rewrite Hc by discriminate. discriminate.
  - destruct e; simpl in H;
      try (inversion H; subst; split; [exact Hreg|]; split; [|exact Hpatch];
           rewrite Hc by discriminate; discriminate).
    + (* ApiException *)
      specialize (Hc ltac:(discriminate)).
      destruct (negb (status =? 404)); simpl in H; inversion H; subst;
        (split; [exact Hreg|]); rewrite !existsb_app, Hc; simpl;
        (split; [discriminate|]).
      * rewrite app_nil_r. destruct Hpatch as [Hp|Ha]; [left; rewrite Hp; reflexivity|].
        right. rewrite <- (app_nil_r evs1). apply applied_app; auto.
      * destruct Hpatch as [Hp|Ha]; [left; rewrite Hp; reflexivity|].
        right. apply applied_app; auto.
    + (* MetricNotFound *)
      destruct (Hm eq_refl) as (Hu & He & Hp).
      simpl in H. inversion H; subst.
      split; [exact Hreg|]. rewrite !existsb_app, Hu, He, Hp. simpl. split.
      * intros _. repeat split. apply in_or_app. right. left. reflexivity.
      * left. reflexivity.
  - inversion H; subst. split; [exact Hreg|]. split; [|exact Hpatch].
    rewrite Hc by discriminate. discriminate.
Qed.

Lemma update_target_run hpa w r evs w' :
  update_target hpa w = (r, evs, w') ->
  HPAs w' = HPAs w
  /\ (existsb metric_unavailable evs = true ->
      r = Ret tt
      /\ existsb is_patch evs = false
      /\ existsb is_metric_error_log evs = true
      /\ In (Log ERROR (WillNotUpdate (target_kind hpa) (namespace hpa) (target_name hpa))) evs)
  /\ (existsb is_patch evs = false \/ exists k, applied hpa k w evs).
Proof.
  unfold update_target. intros H.
  destruct (workload_of (target_kind hpa)) as [k|].
  - destruct (update_target_with_run _ _ _ _ _ _ H) as (Hreg & Hm & Hp).
    split; [exact Hreg|]. split; [exact Hm|]. destruct Hp; eauto.
  - inversion H; subst. simpl. split; [reflexivity|]. split; [discriminate|]. auto.
Qed.

Lemma not_a_patch evs e :
  existsb is_patch evs = false -> In e evs -> is_patch e = false.
Proof.
  intros Hn Hin. destruct (is_patch e) eqn:E; [|reflexivity].
  assert (existsb is_patch evs = true) by (apply existsb_exists; eauto).
  congruence.
Qed.

(** The one patch of an applied run. *)
Lemma applied_patch hpa k w evs k' ns nm body answer :
  applied hpa k w evs ->
  In (PatchScale k' ns nm body answer) evs ->
  k' = k /\ ns = namespace hpa /\ nm = name hpa
  /\ exists evs0 w0 scale w1 current needed evs2 w2 tail,
       scaling_is_needed hpa (read_namespaced_scale k) w = (Ret true, evs0, w0)
       /\ read_namespaced_scale k (namespace hpa) (name hpa) w0
          = (Ret scale, [ReadScale k (namespace hpa) (name hpa) (Ok scale)], w1)
       /\ get_replicas hpa (read_namespaced_scale k) w1 = (Ret (current, needed), evs2, w2)
       /\ body = set_spec_replicas scale needed
       /\ evs = evs0 ++ [ReadScale k ns nm (Ok scale)] ++ evs2
                     ++ [PatchScale k' ns nm body answer] ++ tail
       /\ existsb is_patch evs0 = false
       /\ existsb is_patch tail = false.
Proof.
  intros (evs0 & w0 & scale & w1 & current & needed & evs2 & w2 & answer' & tail
          & H0 & H1 & H2 & Hevs & Hp0 & Hp2 & Hpt) Hin.
  assert (Hthis : PatchScale k' ns nm body answer
                  = PatchScale k (namespace hpa) (name hpa)
                               (set_spec_replicas scale needed) answer').
  { rewrite Hevs in Hin. repeat (apply in_app_or in Hin; destruct Hin as [Hin|Hin]).
    - apply (not_a_patch _ _ Hp0) in Hin. discriminate.
    - destruct Hin as [Hin|[]]. discriminate.
    - apply (not_a_patch _ _ Hp2) in Hin. discriminate.
    - destruct Hin as [Hin|[]]. symmetry. exact Hin.
    - apply (not_a_patch _ _ Hpt) in Hin. discriminate. }
  inversion Hthis; subst. repeat split.
  exists evs0, w0, scale, w1, current, needed, evs2, w2, tail. repeat split; auto.
Qed.

(** A [get_replicas] that returns made one scale read and one metric
    fetch, both answered. *)
Lemma get_replicas_ret hpa k w c n evs w' :
  get_replicas hpa (read_namespaced_scale k) w = (Ret (c, n), evs, w') ->
  clock w' = clock w
  /\ exists s l,
       evs = [ReadScale k (namespace hpa) (name hpa) (Ok s);
              GetMetric (metric_value_path hpa) (Ok l)]
       /\ c = status_replicas s.
Proof.
  unfold get_replicas, try_except, bind, read_namespaced_scale. intros H.
  destruct (scale_reads w) as [|[s|st] rest]; simpl in H; try discriminate.
  - unfold get_needed_replicas, try_except, bind, request_GET in H. simpl in H.
    destruct (metric_reads w) as [|[l|st] mrest]; simpl in H; try discriminate.
    + destruct l as [[|[v|] more]]; simpl in H; inversion H; subst; simpl.
      split; [reflexivity|]. eexists _, _. split; reflexivity.
    + destruct ((st =? 404) || (st =? 503) || (st =? 403)); simpl in H; discriminate.
  - destruct (negb (st =? 404)); simpl in H; discriminate.
Qed.

(** ** Metric unavailable *)

(** C6. Whenever a metric fetch made during the evaluation of an HPA is
    answered 404, 503 or 403 (at the first read, at a poll of the wait, or
    at a later read), [update_target] returns normally: the failure is
    logged as an error, no patch is issued, the registry is left as it
    was, and the loop of [_watch] goes on with the next HPA. *)
Theorem C6_metric_unavailable_abandons_cycle (hpa : HPA) (w : World)
    (r : result unit) (evs : list event) (w' : World) :
  update_target hpa w = (r, evs, w') ->
  existsb metric_unavailable evs = true ->
  r = Ret tt
  /\ existsb is_patch evs = false
  /\ existsb is_metric_error_log evs = true
  /\ In (Log ERROR (WillNotUpdate (target_kind hpa) (namespace hpa) (target_name hpa))) evs
  /\ HPAs w' = HPAs w
  /\ forall rest,
       for_hpa (hpa :: rest) w
       = (let '(r2, evs2, w2) := for_hpa rest w' in (r2, evs ++ evs2, w2)).
Proof.
  intros Hrun Hfail.
  destruct (update_target_run _ _ _ _ _ Hrun) as (Hreg & Hm & _).
  destruct (Hm Hfail) as (Hr & Hp & He & Hlog).
  repeat split; auto.
  intros rest. simpl. unfold bind at 1. rewrite Hrun, Hr.
  destruct (for_hpa rest w') as [[r2 evs2] w2]. reflexivity.
Qed.

(** A scale-down is pending on a 15 s window; the metric adapter answers
    503 at the first poll of the wait. *)
Lemma C6_witness :
  let w := Sample.cluster [Ok (Sample.scale "1" 1); Ok (Sample.scale "1" 1)] []
                          [Sample.metric 0; Failed 503] [100; 101] in
  fst (fst (update_target (Sample.hpa 0 15) w)) = Ret tt
  /\ existsb is_patch (events_of (update_target (Sample.hpa 0 15) w)) = false.
Proof.
  intros w.
  destruct (C6_metric_unavailable_abandons_cycle (Sample.hpa 0 15) w _ _ _ eq_refl eq_refl)
    as (Hr & Hp & _).
  split; [exact Hr | exact Hp].
Defined.

(** ** What a patch writes *)

Lemma update_target_patches hpa w :
  patches_at_most_one (events_of (update_target hpa w)).
Proof.
  destruct (update_target hpa w) as [[r evs] w'] eqn:Hrun. unfold events_of. simpl.
  destruct (update_target_run _ _ _ _ _ Hrun) as (_ & _ & [Hnone | [k Happ]]);
    apply Forall_forall; intros e Hin.
  - apply (not_a_patch _ _ Hnone) in Hin. destruct e; auto. discriminate.
  - destruct e; auto.
    destruct (applied_patch _ _ _ _ _ _ _ _ _ Happ Hin)
      as (_ & _ & _ & evs0 & w0 & scale & w1 & current & needed & evs2 & w2 & tail
          & _ & _ & Hget & Hbody & _ & _ & _).
    subst body. simpl. exact (get_replicas_at_most_one _ _ _ _ _ _ _ Hget).
Qed.

Lemma for_hpa_patches hpas w :
  patches_at_most_one (events_of (for_hpa hpas w)).
Proof.
  revert w. induction hpas as [|hpa rest IH]; intros w; simpl.
  - constructor.
  - unfold bind. pose proof (update_target_patches hpa w) as H1.
    destruct (update_target hpa w) as [[[[]|e|] evs1] w1]; try exact H1.
    pose proof (IH w1) as H2.
    destruct (for_hpa rest w1) as [[r2 evs2] w2].
    unfold events_of in *. simpl in *. apply Forall_app. split; assumption.
Qed.

Lemma watch_cycles_patches cycles w :
  patches_at_most_one (events_of (watch_cycles cycles w)).
Proof.
  revert w. induction cycles as [|cycles IH]; intros w; simpl.
  - constructor.
  - unfold bind at 1. unfold HPAs_values. unfold bind at 1.
    pose proof (for_hpa_patches (dict_values (HPAs w)) w) as H1.
    destruct (for_hpa (dict_values (HPAs w)) w) as [[[[]|e|] evs1] w1]; try exact H1.
    unfold bind. simpl.
    pose proof (IH w1) as H2.
    destruct (watch_cycles cycles w1) as [[r2 evs2] w2].
    unfold events_of in *. simpl in *.
    apply Forall_app. split; [exact H1|]. constructor; [exact I | exact H2].
Qed.

(** C10. A patch never asks for more than one replica: the value written
    is the [min(metric, 1)] just returned by [get_needed_replicas].  This
    holds for one call of [update_target] from any world and for the
    thread of [_watch] over any number of rounds. *)
Theorem C10_patch_at_most_one_replica :
  (forall hpa w, patches_at_most_one (events_of (update_target hpa w)))
  /\ (forall cycles w, patches_at_most_one (events_of (_watch cycles w))).
Proof.
  split; [exact update_target_patches|].
  intros cycles w. unfold _watch.
  pose proof (watch_cycles_patches cycles w) as H.
  destruct (watch_cycles cycles w) as [[[[]|e|] evs] w']; try exact H.
  unfold events_of in *. simpl in *. apply Forall_app. split; [exact H|].
  constructor; [exact I | constructor].
Qed.

(** C9 does not hold as the specification words it: the object written back is not the one
    returned by the read that comes last before the patch.  The three
    reads of the scale return resource versions 1, 2 and 3; the patch
    carries version 2 (read at l.184), the last read before it (inside the
    [get_replicas] of l.185) returned version 3. *)
Lemma C9_counterexample :
  let w := Sample.cluster
             [Ok (Sample.scale "1" 1); Ok (Sample.scale "2" 1); Ok (Sample.scale "3" 1)]
             [Ok tt] [Sample.metric 0; Sample.metric 0] [] in
  read_before_patch None (events_of (update_target (Sample.hpa 0 0) w))
  = Some (Sample.scale "3" 1, set_spec_replicas (Sample.scale "2" 1) 0)
  /\ scale_metadata (set_spec_replicas (Sample.scale "2" 1) 0)
     <> scale_metadata (Sample.scale "3" 1).
Proof.
  split; [reflexivity | discriminate].
Qed.

(** C9 (amended). Every patch writes back the scale object that
    [update_target] read at the start of its apply step (l.184) with only
    [spec.replicas] changed: metadata and status are those of that read.
    Between that read and the patch, [get_replicas] (l.185) reads the
    scale once more and fetches the metric; the object of that later read
    is not the one written back. *)
Theorem C9_patch_writes_back_apply_read (hpa : HPA) (w : World)
    (r : result unit) (evs : list event) (w' : World)
    (k : workload) (ns nm : string) (body : V1Scale) (answer : reply unit) :
  update_target hpa w = (r, evs, w') ->
  In (PatchScale k ns nm body answer) evs ->
  exists pre scale later l post,
    evs = pre ++ [ReadScale k ns nm (Ok scale);
                  ReadScale k ns nm (Ok later);
                  GetMetric (metric_value_path hpa) (Ok l);
                  PatchScale k ns nm body answer] ++ post
    /\ body = set_spec_replicas scale (spec_replicas body)
    /\ scale_metadata body = scale_metadata scale
    /\ status_replicas body = status_replicas scale
    /\ status_selector body = status_selector scale
    /\ existsb is_patch pre = false
    /\ existsb is_patch post = false.
Proof.
  intros Hrun Hin.
  destruct (update_target_run _ _ _ _ _ Hrun) as (_ & _ & [Hnone | [k0 Happ]]).
  - apply (not_a_patch _ _ Hnone) in Hin. discriminate.
  - destruct (applied_patch _ _ _ _ _ _ _ _ _ Happ Hin)
      as (-> & -> & -> & evs0 & w0 & scale & w1 & current & needed & evs2 & w2 & tail
          & _ & _ & Hget & Hbody & Hevs & Hp0 & Hpt).
    destruct (get_replicas_ret _ _ _ _ _ _ _ Hget) as (_ & later & l & Hevs2 & _).
    exists evs0, scale, later, l, tail. subst evs2 body. simpl.
    repeat split; auto.
Qed.

Lemma C9_witness :
  let w := Sample.cluster
             [Ok (Sample.scale "1" 1); Ok (Sample.scale "2" 1); Ok (Sample.scale "3" 1)]
             [Ok tt] [Sample.metric 0; Sample.metric 0] [] in
  let body := set_spec_replicas (Sample.scale "2" 1) 0 in
  exists pre scale later l post,
    events_of (update_target (Sample.hpa 0 0) w)
    = pre ++ [ReadScale Deployment "ns" "a" (Ok scale);
              ReadScale Deployment "ns" "a" (Ok later);
              GetMetric (metric_value_path (Sample.hpa 0 0)) (Ok l);
              PatchScale Deployment "ns" "a" body (Ok tt)] ++ post
    /\ body = set_spec_replicas scale (spec_replicas body)
    /\ scale_metadata body = scale_metadata scale
    /\ status_replicas body = status_replicas scale
    /\ status_selector body = status_selector scale
    /\ existsb is_patch pre = false
    /\ existsb is_patch post = false.
Proof.
  intros w body.
  refine (C9_patch_writes_back_apply_read (Sample.hpa 0 0) w _ _ _
            Deployment "ns" "a" body (Ok tt) eq_refl _).
  simpl. repeat (first [left; reflexivity | right]).
Defined.

(** ** Cancellation during the wait *)

Lemma time_ret w now evs w1 :
  time w = (Ret now, evs, w1) -> clock w = now :: clock w1.
Proof.
  unfold time. intros H. destruct (clock w) as [|t rest]; inversion H; subst. reflexivity.
Qed.

Lemma bind_time {A} (f : Z -> M A) w t rest :
  clock w = t :: rest ->
  bind time f w
  = f t (mkWorld (HPAs w) (watch_streams w) (hpa_reads w) (scale_reads w)
                 (patch_replies w) (metric_reads w) rest).
Proof.
  intros H. unfold bind, time. rewrite H.
  destruct (f t _) as [[r evs] w2]. reflexivity.
Qed.

Lemma bind_agree {A B} (m : M A) (f g : A -> M B) w :
  (forall a evs w', m w = (Ret a, evs, w') -> f a w' = g a w') ->
  bind m f w = bind m g w.
Proof.
  intros H. unfold bind. destruct (m w) as [[[a|e|] evs] w'] eqn:E; try reflexivity.
  rewrite (H a evs w' eq_refl). reflexivity.
Qed.

(** The rounds given to the loop by [scaling_is_needed] are no limit: the
    loop stops for want of rounds only where [time()] has no reading
    left, and more rounds change nothing. *)
Lemma stabilization_loop_rounds hpa k end_time rounds :
  forall w,
    (List.length (clock w) <= rounds)%nat ->
    stabilization_loop rounds hpa (read_namespaced_scale k) end_time w
    = stabilization_loop (List.length (clock w)) hpa (read_namespaced_scale k) end_time w.
Proof.
  induction rounds as [|rounds IH]; intros w Hle.
  - destruct (clock w); [reflexivity | simpl in Hle; lia].
  - destruct (clock w) as [|t rest] eqn:Hclock.
    + simpl. unfold bind, time, starved. rewrite Hclock. reflexivity.
    + simpl in Hle. simpl. rewrite !(bind_time _ w t rest Hclock).
      destruct (t <? end_time); [|reflexivity].
      apply bind_agree. intros [c n] evs w2 Hget.
      destruct (Bool.eqb (bool_ c) (bool_ n)); [reflexivity|].
      destruct (get_replicas_ret _ _ _ _ _ _ _ Hget) as (Hsame & _). simpl in Hsame.
      apply bind_agree. intros u evs' w3 Hsleep. inversion Hsleep; subst w3.
      rewrite (IH w2) by (rewrite Hsame; lia).
      rewrite Hsame. reflexivity.
Qed.

Lemma equal_poll_ends_loop hpa k end_time w :
  poll_reads_equal hpa (read_namespaced_scale k) end_time w ->
  exists evs w',
    stabilization_loop (List.length (clock w)) hpa (read_namespaced_scale k) end_time w
    = (Ret false, evs, w')
    /\ In (Log INFO (ScaleCanceled (target_kind hpa) (namespace hpa) (name hpa))) evs.
Proof.
  induction 1 as [w now w1 c n evs w2 Htime Hlt Hget Heq
                 |w now w1 c n evs w2 Htime Hlt Hget Hneq Hrest IH].
  - rewrite (time_ret _ _ _ _ Htime). simpl. unfold bind at 1. rewrite Htime.
    apply Z.ltb_lt in Hlt. rewrite Hlt. unfold bind at 1. rewrite Hget.
    rewrite Heq, Bool.eqb_reflx. simpl.
    eexists _, _. split; [reflexivity|].
    apply in_or_app. right. left. reflexivity.
  - destruct IH as (evs' & w' & Hloop & Hlog).
    destruct (get_replicas_ret _ _ _ _ _ _ _ Hget) as (Hclock & _).
    rewrite (time_ret _ _ _ _ Htime). simpl. unfold bind at 1. rewrite Htime.
    apply Z.ltb_lt in Hlt. rewrite Hlt. unfold bind at 1. rewrite Hget.
    apply Bool.eqb_false_iff in Hneq. rewrite Hneq.
    unfold bind, sleep, emit. rewrite <- Hclock, Hloop. simpl.
    eexists _, _. split; [reflexivity|].
    apply in_or_app. right. right. exact Hlog.
Qed.

(** C2. With a nonzero window, as soon as a poll of the wait reads
    replica counts with equal truth values, [scaling_is_needed] logs the
    cancellation and returns [False], although the intent had been
    detected and the window has not elapsed; [update_target] then issues
    no patch. *)
Theorem C2_equal_poll_cancels (hpa : HPA) (k : workload) (w : World)
    (current needed : Z) (evs0 : list event) (w0 : World)
    (window now : Z) (w1 : World) :
  workload_of (target_kind hpa) = Some k ->
  get_replicas hpa (read_namespaced_scale k) w = (Ret (current, needed), evs0, w0) ->
  stabilization_window_of hpa current needed = Some window ->
  window <> 0 ->
  time w0 = (Ret now, [], w1) ->
  poll_reads_equal hpa (read_namespaced_scale k) (now + window) w1 ->
  (exists evs w',
     scaling_is_needed hpa (read_namespaced_scale k) w = (Ret false, evs, w')
     /\ In (Log INFO (ScaleCanceled (target_kind hpa) (namespace hpa) (name hpa))) evs)
  /\ existsb is_patch (events_of (update_target hpa w)) = false.
Proof.
  intros Hkind Hget Hwin Hnz Htime Hpoll.
  destruct (equal_poll_ends_loop _ _ _ _ Hpoll) as (evs1 & w' & Hloop & Hlog).
  assert (Hsin : scaling_is_needed hpa (read_namespaced_scale k) w
                 = (Ret false,
                    evs0 ++ [] ++ [Log INFO (WillBeScaled (target_kind hpa) (namespace hpa)
                                                         (name hpa) current needed)] ++ evs1,
                    w')).
  { unfold scaling_is_needed. unfold bind at 1. rewrite Hget, Hwin.
    apply Z.eqb_neq in Hnz. rewrite Hnz. simpl.
    unfold bind at 1. rewrite Htime. unfold bind, log, emit. rewrite Hloop. reflexivity. }
  split.
  - eexists _, _. split; [exact Hsin|].
    apply in_or_app. right. simpl. right. exact Hlog.
  - destruct (update_target hpa w) as [[r evs] w2] eqn:Hrun. unfold events_of. simpl.
    destruct (update_target_run _ _ _ _ _ Hrun) as (_ & _ & [Hnone | [k' Happ]]);
      [exact Hnone|].
    exfalso. unfold update_target in Hrun. rewrite Hkind in Hrun.
    destruct (update_target_with_run _ _ _ _ _ _ Hrun) as (_ & _ & [Hnone | Happ']).
    + destruct Happ as (e0 & x0 & sc & x1 & cu & ne & e2 & x2 & an & ta
                        & _ & _ & _ & Hevs & _).
      assert (Hin : In (PatchScale k' (namespace hpa) (name hpa) (set_spec_replicas sc ne) an) evs).
      { rewrite Hevs. apply in_or_app. right. apply in_or_app. right.
        apply in_or_app. right. left. reflexivity. }
      apply (not_a_patch _ _ Hnone) in Hin. discriminate.
    + destruct Happ' as (e0 & x0 & sc & x1 & cu & ne & e2 & x2 & an & ta & Htrue & _).
      rewrite Hsin in Htrue. discriminate.
Qed.

(** A scale-down is pending on a 15 s window that starts at t = 100; the
    first poll (t = 101) still reads metric 0, the second (t = 102) reads
    metric 5 while one replica runs. *)
Lemma C2_witness :
  let one := Ok (Sample.scale "1" 1) in
  let w := Sample.cluster [one; one; one; one] [Ok tt]
             [Sample.metric 0; Sample.metric 0; Sample.metric 5; Sample.metric 5]
             [100; 101; 102; 103] in
  (exists evs w',
     scaling_is_needed (Sample.hpa 0 15) (read_namespaced_scale Deployment) w
     = (Ret false, evs, w')
     /\ In (Log INFO (ScaleCanceled "Deployment" "ns" "a")) evs)
  /\ existsb is_patch (events_of (update_target (Sample.hpa 0 15) w)) = false.
Proof.
  intros one w.
  pose (read := fun n => [ReadScale Deployment "ns" "a" one;
                          GetMetric Sample.path (Sample.metric n)]).
  pose (w0 := Sample.cluster [one; one; one] [Ok tt]
                [Sample.metric 0; Sample.metric 5; Sample.metric 5] [100; 101; 102; 103]).
  pose (w1 := Sample.cluster [one; one; one] [Ok tt]
                [Sample.metric 0; Sample.metric 5; Sample.metric 5] [101; 102; 103]).
  pose (w2 := Sample.cluster [one; one; one] [Ok tt]
                [Sample.metric 0; Sample.metric 5; Sample.metric 5] [102; 103]).
  pose (w3 := Sample.cluster [one; one] [Ok tt]
                [Sample.metric 5; Sample.metric 5] [102; 103]).
  pose (w4 := Sample.cluster [one; one] [Ok tt]
                [Sample.metric 5; Sample.metric 5] [103]).
  pose (w5 := Sample.cluster [one] [Ok tt] [Sample.metric 5] [103]).
  refine (C2_equal_poll_cancels (Sample.hpa 0 15) Deployment w 1 0 (read 0) w0 15 100 w1
            eq_refl eq_refl eq_refl _ eq_refl _).
  - discriminate.
  - refine (@equal_later (Sample.hpa 0 15) (read_namespaced_scale Deployment) (100 + 15)
              w1 101 w2 1 0 (read 0) w3 eq_refl _ eq_refl _ _).
    + reflexivity.
    + discriminate.
    + refine (@equal_now (Sample.hpa 0 15) (read_namespaced_scale Deployment) (100 + 15)
                w3 102 w4 1 1 (read 5) w5 eq_refl _ eq_refl eq_refl).
      reflexivity.
Defined.

(** ** A scale target that is not found *)

(** Not-found at the read of [get_replicas]: the handler logs and falls
    through to [scale.status.replicas] with [scale] unbound. *)
Lemma get_replicas_not_found hpa k w rest :
  scale_reads w = Failed 404 :: rest ->
  exists w',
    get_replicas hpa (read_namespaced_scale k) w
    = (Raise UnboundLocalError,
       [ReadScale k (namespace hpa) (name hpa) (Failed 404);
        Log WARNING (ReplicasTargetNotFound (namespace hpa) (name hpa))],
       w').
Proof.
  intros H. unfold get_replicas, try_except, bind, read_namespaced_scale. rewrite H.
  simpl. eexists. reflexivity.
Qed.

Lemma update_target_not_found hpa k w rest :
  workload_of (target_kind hpa) = Some k ->
  scale_reads w = Failed 404 :: rest ->
  exists w',
    update_target hpa w
    = (Raise UnboundLocalError,
       [ReadScale k (namespace hpa) (name hpa) (Failed 404);
        Log WARNING (ReplicasTargetNotFound (namespace hpa) (name hpa))],
       w').
Proof.
  intros Hk H. destruct (get_replicas_not_found hpa k w rest H) as [w' Hget].
  unfold update_target. rewrite Hk.
  unfold update_target_with, try_except, scale_if_needed, scaling_is_needed.
  unfold bind at 1. unfold bind at 1. rewrite Hget. simpl. eexists. reflexivity.
Qed.

(** The sibling path: not-found at the read of l.184 is caught by
    [update_target] and skipped. *)
Lemma apply_read_not_found_is_skipped :
  let w := Sample.cluster [Ok (Sample.scale "1" 1); Failed 404] [] [Sample.metric 0] [] in
  fst (update_target (Sample.hpa 0 0) w)
  = (Ret tt,
     [ReadScale Deployment "ns" "a" (Ok (Sample.scale "1" 1));
      GetMetric Sample.path (Sample.metric 0);
      ReadScale Deployment "ns" "a" (Failed 404);
      Log WARNING (TargetNotFound "Deployment" "ns" "a")]).
Proof. reflexivity. Qed.

(** C3, at the failing input.  The registry tracks [ns/a] and the first
    read of its scale is answered 404: [get_replicas] logs the warning,
    then raises [UnboundLocalError], which no handler of [update_target]
    catches; the thread of [_watch] logs it and ends the process with
    code 1. *)
Theorem C3_not_found_read_ends_process :
  let w := mkWorld [("ns/a", Sample.hpa 0 0)] [] [] [Failed 404] [] [] [] in
  fst (update_target (Sample.hpa 0 0) w)
  = (Raise UnboundLocalError,
     [ReadScale Deployment "ns" "a" (Failed 404);
      Log WARNING (ReplicasTargetNotFound "ns" "a")])
  /\ fst (_watch 1 w)
     = (Exited 1,
        [ReadScale Deployment "ns" "a" (Failed 404);
         Log WARNING (ReplicasTargetNotFound "ns" "a");
         Log ERROR (ExitingBecauseOf UnboundLocalError)]).
Proof. split; reflexivity. Qed.

(** ** Resolution of the metric annotation *)

Section Resolution.

(* case analysis along [build_metric_value_path] *)
Ltac along_resolution hpa :=
  unfold resolution, build_metric_value_path, bind, try_except, lift;
  destruct (load_metrics hpa) as [e0|metrics] eqn:Eload; simpl;
  [| destruct (custom_metric_and_target metrics) as [e1|[cm target]] eqn:Etry; simpl;
     [ destruct e1; simpl
     | destruct (subscript target "name") as [e2|service] eqn:Ename; simpl;
       [| destruct (subscript cm "metricName") as [e3|metric] eqn:Emetric; simpl ] ] ].

Lemma build_metric_value_path_run hpa w :
  build_metric_value_path hpa w = (fst (resolution hpa), snd (resolution hpa), w).
Proof. along_resolution hpa; reflexivity. Qed.

Lemma subscript_raises v key e :
  subscript v key = inl e -> e = KeyError \/ e = TypeError.
Proof.
  unfold subscript. destruct v; try (intros H; inversion H; auto; fail).
  destruct (dict_get key fields); intros H; inversion H; auto.
Qed.

Lemma next_object_raises ms e :
  next_object ms = inl e -> e = StopIteration \/ e = KeyError \/ e = TypeError.
Proof.
  induction ms as [|m rest IH]; simpl; intros H.
  - inversion H; auto.
  - destruct (subscript m "type") as [e'|ty] eqn:Ety; simpl in H.
    + inversion H; subst. destruct (subscript_raises _ _ _ Ety); auto.
    + destruct (eq_str ty "Object"); [|auto].
      destruct (subscript_raises _ _ _ H); auto.
Qed.

Lemma custom_metric_and_target_raises metrics e :
  custom_metric_and_target metrics = inl e -> is_api_exception e = false.
Proof.
  unfold custom_metric_and_target. intros H.
  destruct (py_iter metrics) as [e0|ms] eqn:Eiter; simpl in H.
  { inversion H; subst. destruct metrics; simpl in Eiter; inversion Eiter; reflexivity. }
  destruct (next_object ms) as [e1|cm] eqn:Enext; simpl in H.
  { inversion H; subst.
    destruct (next_object_raises _ _ Enext) as [->|[->| ->]]; reflexivity. }
  destruct (dot_get cm "selector") as [e2|selector] eqn:Esel; simpl in H.
  { inversion H; subst. destruct cm; simpl in Esel; inversion Esel; try reflexivity.
    destruct (dict_get "selector" fields); discriminate. }
  destruct (negb (truthy selector)); simpl in H; [|inversion H; reflexivity].
  destruct (subscript cm "target") as [e3|target] eqn:Etarget; simpl in H.
  { inversion H; subst. destruct (subscript_raises _ _ _ Etarget) as [->| ->]; reflexivity. }
  destruct (subscript target "kind") as [e4|kind] eqn:Ekind; simpl in H.
  { inversion H; subst. destruct (subscript_raises _ _ _ Ekind) as [->| ->]; reflexivity. }
  destruct (eq_str kind "Service"); simpl in H; inversion H; reflexivity.
Qed.

Lemma load_metrics_raises hpa e :
  load_metrics hpa = inl e -> e = TypeError \/ e = KeyError \/ e = JSONDecodeError.
Proof.
  unfold load_metrics. destruct (annotations (hpa_metadata hpa)) as [d|].
  - destruct (dict_get METRICS_ANNOTATION d) as [[j|]|]; intros H; inversion H; auto.
  - intros H; inversion H; auto.
Qed.

(** A failed resolution never raises an [ApiException]. *)
Lemma resolution_raises hpa e :
  fst (resolution hpa) = Raise e -> is_api_exception e = false.
Proof.
  along_resolution hpa; intros H; inversion H; subst; try reflexivity.
  - destruct (load_metrics_raises _ _ Eload) as [->|[->| ->]]; reflexivity.
  - apply custom_metric_and_target_raises in Etry. discriminate.
  - destruct (subscript_raises _ _ _ Ename) as [->| ->]; reflexivity.
  - destruct (subscript_raises _ _ _ Emetric) as [->| ->]; reflexivity.
Qed.

(** The two exceptions of the shape check are logged before they are
    raised again. *)
Lemma resolution_logged hpa e :
  fst (resolution hpa) = Raise e ->
  e = StopIteration \/ e = AssertionError ->
  In (Log ERROR OnlyOneCustomMetric) (snd (resolution hpa)).
Proof.
  along_resolution hpa; intros H He; inversion H; subst;
    try (simpl; auto; fail);
    try (destruct He; discriminate).
  - destruct (load_metrics_raises _ _ Eload) as [->|[->| ->]]; destruct He; discriminate.
  - destruct (subscript_raises _ _ _ Ename) as [->| ->]; destruct He; discriminate.
  - destruct (subscript_raises _ _ _ Emetric) as [->| ->]; destruct He; discriminate.
Qed.

End Resolution.

(** ** An event whose annotation does not resolve *)

Lemma update_hpa_resolution_fails metadata up down w hpa rest e :
  hpa_reads w = Ok hpa :: rest ->
  fst (resolution hpa) = Raise e ->
  exists w',
    update_hpa metadata up down w
    = (Raise e,
       ReadHPA (meta_namespace metadata) (meta_name metadata) (Ok hpa)
         :: snd (resolution hpa),
       w')
    /\ HPAs w' = HPAs w
    /\ hpa_reads w' = rest
    /\ watch_streams w' = watch_streams w.
Proof.
  intros Hread Hres. pose proof (resolution_raises _ _ Hres) as Hapi.
  unfold update_hpa, try_except. unfold bind at 1.
  unfold read_namespaced_horizontal_pod_autoscaler. rewrite Hread.
  unfold bind. rewrite build_metric_value_path_run, Hres.
  destruct e; try discriminate; simpl; eexists; repeat split.
Qed.

Lemma watch_hpa_resolution_fails args w ev more ending streams hpa rest e :
  watch_streams w = mkStream (ev :: more) ending :: streams ->
  hpa_reads w = Ok hpa :: rest ->
  fst (resolution hpa) = Raise e ->
  exists evs w',
    watch_hpa args w = (Raise e, evs, w')
    /\ HPAs w' = HPAs w
    /\ hpa_reads w' = rest.
Proof.
  intros Hstream Hread Hres. pose proof (resolution_raises _ _ Hres) as Hapi.
  set (w1 := mkWorld (HPAs w) streams (hpa_reads w) (scale_reads w)
                     (patch_replies w) (metric_reads w) (clock w)).
  destruct (update_hpa_resolution_fails (ev_metadata ev)
              (arg_scale_up_stabilization_window args)
              (arg_scale_down_stabilization_window args) w1 hpa rest e Hread Hres)
    as (w' & Hupd & Hreg & Hrest & _).
  unfold watch_hpa, bind, log, emit. rewrite Hstream. simpl.
  unfold try_except, bind, open_stream. rewrite Hstream. simpl.
  fold w1. unfold bind. rewrite Hupd.
  destruct e; try discriminate; simpl; eexists _, _; repeat split; auto.
Qed.

(** C4 does not hold as the specification words it: the stream yields two events for [ns/a];
    at the first the annotation holds no Object entry.  [watch_hpa] ends
    with [StopIteration]; the second event is never handled (its read is
    still pending) and nothing is registered. *)
Lemma C4_counterexample :
  let ev := mkEvent MODIFIED (Sample.meta "1") in
  let w := Sample.api [] [mkStream [ev; ev] None]
             [Ok (Sample.hpa_object (Some (JArr [])));
              Ok (Sample.hpa_object (Some (JArr [Sample.entry "svc"])))] in
  fst (fst (watch_hpa Sample.args w)) = Raise StopIteration
  /\ hpa_reads (snd (watch_hpa Sample.args w))
     = [Ok (Sample.hpa_object (Some (JArr [Sample.entry "svc"])))]
  /\ HPAs (snd (watch_hpa Sample.args w)) = [].
Proof. repeat split. Qed.

(** ** Shapes that are turned down *)

Lemma next_object_skips pre rest :
  Forall other_entry pre -> next_object (pre ++ rest) = next_object rest.
Proof.
  induction 1 as [|m pre (ty & Hty & Hother) _ IH]; simpl; [reflexivity|].
  rewrite Hty. simpl. rewrite Hother. exact IH.
Qed.

Lemma next_object_here m cm rest :
  object_entry m cm -> next_object (m :: rest) = inr cm.
Proof.
  intros (ty & Hty & Hobj & Hcm). simpl. rewrite Hty. simpl. rewrite Hobj. exact Hcm.
Qed.

(** What the [try] of [build_metric_value_path] raises on such a shape. *)
Lemma rejected_shape_raises ms :
  rejected_shape ms ->
  exists e, custom_metric_and_target (JArr ms) = inl e
            /\ (e = StopIteration \/ e = AssertionError).
Proof.
  unfold custom_metric_and_target. simpl.
  intros [ms' Hall | pre m cm selector post Hpre Hm Hsel Htruthy
          | pre m cm target kind post Hpre Hm Htarget Hkind Hservice].
  - exists StopIteration. split; [|auto].
    rewrite <- (app_nil_r ms'), (next_object_skips _ _ Hall). reflexivity.
  - exists AssertionError. split; [|auto].
    rewrite (next_object_skips _ _ Hpre), (next_object_here _ _ _ Hm). simpl.
    rewrite Hsel. simpl. rewrite Htruthy. reflexivity.
  - exists AssertionError. split; [|auto].
    rewrite (next_object_skips _ _ Hpre), (next_object_here _ _ _ Hm). simpl.
    assert (Hthen : (target0 <~ subscript cm "target" ;;
                     kind0 <~ subscript target0 "kind" ;;
                     _ <~ py_assert (eq_str kind0 "Service") ;;
                     inr (cm, target0))%py = inl AssertionError).
    { rewrite Htarget. simpl. rewrite Hkind. simpl. rewrite Hservice. reflexivity. }
    destruct cm; try discriminate. unfold dot_get.
    destruct (dict_get "selector" fields) as [selector|]; simpl py_bind.
    + destruct (negb (truthy selector)); simpl py_bind; [exact Hthen | reflexivity].
    + exact Hthen.
Qed.

Lemma rejected_shape_resolution hpa ms :
  load_metrics hpa = inr (JArr ms) ->
  rejected_shape ms ->
  exists e, fst (resolution hpa) = Raise e /\ (e = StopIteration \/ e = AssertionError).
Proof.
  intros Hload Hshape.
  destruct (rejected_shape_raises _ Hshape) as (e & Htry & He).
  exists e. split; [|exact He].
  unfold resolution, build_metric_value_path, bind, try_except, lift.
  rewrite Hload. simpl. rewrite Htry.
  destruct He as [-> | ->]; reflexivity.
Qed.

(** ** The registry over time *)

Lemma dict_get_pop_same {V} (k : string) (d : list (string * V)) :
  dict_get k (dict_pop k d) = None.
Proof.
  induction d as [|[k' v] d IH]; simpl; [reflexivity|].
  destruct (String.eqb k k') eqn:E; [exact IH|]. simpl. rewrite E. exact IH.
Qed.

Lemma dict_get_pop_other {V} (k k' : string) (d : list (string * V)) :
  dict_get k d = None -> dict_get k (dict_pop k' d) = None.
Proof.
  induction d as [|[k0 v] d IH]; simpl; [reflexivity|].
  destruct (String.eqb k k0) eqn:E; [discriminate|]. intros H.
  destruct (String.eqb k' k0); [exact (IH H)|]. simpl. rewrite E. exact (IH H).
Qed.

Lemma dict_get_set_other {V} (k k' : string) (v : V) (d : list (string * V)) :
  k <> k' -> dict_get k (dict_set k' v d) = dict_get k d.
Proof.
  intros Hne. apply String.eqb_neq in Hne.
  induction d as [|[k0 v0] d IH]; simpl.
  - rewrite Hne. reflexivity.
  - destruct (String.eqb k' k0) eqn:E; simpl.
    + apply String.eqb_eq in E. subst k0. rewrite Hne. reflexivity.
    + destruct (String.eqb k k0); [reflexivity | exact IH].
Qed.

(** An event whose re-read is answered not-found removes the key. *)
Lemma update_hpa_not_found metadata up down w rest :
  hpa_reads w = Failed 404 :: rest ->
  exists w',
    update_hpa metadata up down w
    = (Ret tt,
       [ReadHPA (meta_namespace metadata) (meta_name metadata) (Failed 404);
        Log INFO (HpaNotFound (meta_namespace metadata) (meta_name metadata))],
       w')
    /\ untracked (namespaced_name metadata) w'.
Proof.
  intros Hread. unfold update_hpa, try_except. unfold bind at 1.
  unfold read_namespaced_horizontal_pod_autoscaler. rewrite Hread. simpl.
  eexists. split; [reflexivity|]. unfold untracked. simpl. apply dict_get_pop_same.
Qed.

(** Only an event for [K] that is found and resolves can bring [K] in. *)
Lemma update_hpa_keeps_untracked K metadata up down w r evs w' :
  untracked K w ->
  ~ (namespaced_name metadata = K
     /\ exists hpa rest path,
          hpa_reads w = Ok hpa :: rest /\ fst (resolution hpa) = Ret path) ->
  update_hpa metadata up down w = (r, evs, w') ->
  untracked K w'.
Proof.
  unfold untracked. intros Hun Hquiet Hrun.
  unfold update_hpa, try_except in Hrun. unfold bind at 1 in Hrun.
  unfold read_namespaced_horizontal_pod_autoscaler in Hrun.
  destruct (hpa_reads w) as [|[hpa|st] rest] eqn:Hread; simpl in Hrun.
  - inversion Hrun; subst. exact Hun.
  - unfold bind in Hrun. rewrite build_metric_value_path_run in Hrun.
    destruct (fst (resolution hpa)) as [path|e|] eqn:Hres.
    + simpl in Hrun. inversion Hrun; subst. simpl.
      rewrite dict_get_set_other; [exact Hun|].
      intros Heq. apply Hquiet. split; [symmetry; exact Heq|].
      exists hpa, rest, path. split; [reflexivity | exact Hres].
    + pose proof (resolution_raises _ _ Hres) as Hapi.
      destruct e; try discriminate; inversion Hrun; subst; exact Hun.
    + inversion Hrun; subst. exact Hun.
  - destruct (negb (st =? 404)); simpl in Hrun; inversion Hrun; subst; simpl.
    + exact Hun.
    + apply dict_get_pop_other. exact Hun.
Qed.

Lemma step_keeps_untracked args K a w r evs w' :
  untracked K w ->
  ~ readmits K a w ->
  step args a w = (r, evs, w') ->
  untracked K w'.
Proof.
  intros Hun Hquiet Hrun. destruct a as [ev|hpa]; simpl in *.
  - exact (update_hpa_keeps_untracked _ _ _ _ _ _ _ _ Hun Hquiet Hrun).
  - destruct (update_target_run _ _ _ _ _ Hrun) as (Hreg & _).
    unfold untracked in *. rewrite Hreg. exact Hun.
Qed.

Lemma untracked_until_readmitted args K acts w :
  untracked K w ->
  never_readmitted args K acts w ->
  Forall (untracked K) (worlds_after args acts w).
Proof.
  revert w. induction acts as [|a rest IH]; intros w Hun Hnever; simpl.
  - constructor.
  - destruct Hnever as [Hquiet Hrest].
    destruct (step args a w) as [[r evs] w'] eqn:Hrun.
    pose proof (step_keeps_untracked _ _ _ _ _ _ _ Hun Hquiet Hrun) as Hun'.
    destruct r as [[]|e|].
    + constructor; [exact Hun' | exact (IH _ Hun' Hrest)].
    + constructor; [exact Hun' | constructor].
    + constructor; [exact Hun' | constructor].
Qed.

(** C8 does not hold as the specification words it: the registry is empty and a DELETED event
    arrives for [ns/a] while the re-read still finds the HPA (it stopped
    matching the label selector, or was created again); handling the
    delete event registers [ns/a]. *)
Lemma C8_counterexample :
  let ev := mkEvent DELETED (Sample.meta "1") in
  let w := Sample.api [] []
             [Ok (Sample.hpa_object (Some (JArr [Sample.entry "svc"])))] in
  untracked "ns/a" w
  /\ ev_type ev = DELETED
  /\ fst (fst (step Sample.args (Discover ev) w)) = Ret tt
  /\ dict_get "ns/a" (HPAs (snd (step Sample.args (Discover ev) w)))
     = Some (mkHPA "a" "ns" (mkPath "ns" (JStr "svc") (JStr "foo_metric"))
                   "Deployment" "a" 0 0).
Proof. repeat split. Qed.

(** C8 (amended). Once an event for [K] whose re-read is answered
    not-found has been handled, [K] is out of the registry, and it stays
    out, whatever the two threads do next, until an event for [K] is
    handled whose re-read finds the HPA with a metric annotation that
    resolves.  The type of the event (added, modified, deleted) plays no
    part. *)
Theorem C8_untracked_until_readmitted (args : Args) (ev : watch_event) (w : World)
    (rest : list (reply V1HorizontalPodAutoscaler)) (acts : list action) :
  hpa_reads w = Failed 404 :: rest ->
  exists evs w1,
    step args (Discover ev) w = (Ret tt, evs, w1)
    /\ untracked (namespaced_name (ev_metadata ev)) w1
    /\ (never_readmitted args (namespaced_name (ev_metadata ev)) acts w1 ->
        Forall (untracked (namespaced_name (ev_metadata ev))) (worlds_after args acts w1)).
Proof.
  intros Hread. simpl.
  destruct (update_hpa_not_found (ev_metadata ev)
              (arg_scale_up_stabilization_window args)
              (arg_scale_down_stabilization_window args) w rest Hread)
    as (w1 & Hrun & Hun).
  eexists _, w1. split; [exact Hrun|]. split; [exact Hun|].
  intros Hnever. exact (untracked_until_readmitted _ _ _ _ Hun Hnever).
Qed.

(** [ns/a] is tracked and found gone; then [ns/b] is discovered, and a
    second event for [ns/a] is again answered not-found. *)
Lemma C8_witness :
  let gone := mkEvent MODIFIED (Sample.meta "1") in
  let other := mkEvent ADDED (mkMeta "ns" "b" "1" None) in
  let w := Sample.api [("ns/a", Sample.hpa 0 0)] []
             [Failed 404;
              Ok (Sample.hpa_object (Some (JArr [Sample.entry "svc"])));
              Failed 404] in
  let w1 := snd (step Sample.args (Discover gone) w) in
  untracked "ns/a" w1
  /\ Forall (untracked "ns/a")
            (worlds_after Sample.args [Discover other; Discover gone] w1).
Proof.
  intros gone other w w1.
  destruct (C8_untracked_until_readmitted Sample.args gone w _
              [Discover other; Discover gone] eq_refl)
    as (evs & w1' & Hrun & Hun & Hall).
  assert (Hw1 : w1' = w1) by (inversion Hrun; reflexivity).
  rewrite Hw1 in Hun, Hall. split; [exact Hun|]. apply Hall.
  simpl. split.
  - intros [Hkey _]. discriminate.
  - split; [|exact I]. intros [_ (hpa & rest & path & Hread & _)]. discriminate.
Defined.

(** * Further properties of [main.py] *)

(** ** The decision *)

Lemma not_needed_no_patch hpa k w evs w' :
  workload_of (target_kind hpa) = Some k ->
  scaling_is_needed hpa (read_namespaced_scale k) w = (Ret false, evs, w') ->
  existsb is_patch (events_of (update_target hpa w)) = false.
Proof.
  intros Hkind Hsin.
  destruct (update_target hpa w) as [[r evs1] w2] eqn:Hrun. unfold events_of. simpl.
  unfold update_target in Hrun. rewrite Hkind in Hrun.
  destruct (update_target_with_run _ _ _ _ _ _ Hrun) as (_ & _ & [Hnone | Happ]);
    [exact Hnone|].
  destruct Happ as (e0 & x0 & sc & x1 & cu & ne & e2 & x2 & an & ta & Htrue & _).
  rewrite Hsin in Htrue. discriminate.
Qed.

Lemma equal_truth_values_no_intent hpa c n :
  0 <= c -> bool_ c = bool_ n -> stabilization_window_of hpa c n = None.
Proof.
  unfold stabilization_window_of, scaling_up_is_needed, scaling_down_is_needed, bool_.
  intros Hc Heq.
  destruct (Z.ltb_spec c n), (Z.eqb_spec n 1), (Z.eqb_spec n 0),
    (Z.eqb_spec c 0); rewrite ?Z.gtb_ltb; simpl in *; try discriminate; try lia;
    destruct (Z.ltb_spec n c); simpl; try reflexivity; lia.
Qed.

(** X1. An HPA whose first read shows current and desired replicas with
    equal truth values (current not negative) is left alone:
    [scaling_is_needed] returns [False] right after that read and
    [update_target] issues no patch. *)
Theorem X1_stable_target_is_not_patched (hpa : HPA) (k : workload) (w : World)
    (current needed : Z) (evs : list event) (w1 : World) :
  workload_of (target_kind hpa) = Some k ->
  get_replicas hpa (read_namespaced_scale k) w = (Ret (current, needed), evs, w1) ->
  0 <= current ->
  bool_ current = bool_ needed ->
  scaling_is_needed hpa (read_namespaced_scale k) w = (Ret false, evs, w1)
  /\ existsb is_patch (events_of (update_target hpa w)) = false.
Proof.
  intros Hkind Hget Hc Heq.
  assert (Hsin : scaling_is_needed hpa (read_namespaced_scale k) w = (Ret false, evs, w1)).
  { apply (scaling_is_needed_no_intent _ _ _ current needed); [exact Hget|].
    apply equal_truth_values_no_intent; assumption. }
  split; [exact Hsin|]. exact (not_needed_no_patch _ _ _ _ _ Hkind Hsin).
Qed.

(** Three replicas run and the metric is 7, on windows of 15 s. *)
Lemma X1_witness :
  let w := Sample.cluster [Ok (Sample.scale "1" 3); Ok (Sample.scale "1" 3)] []
                          [Sample.metric 7; Sample.metric 7] [] in
  scaling_is_needed (Sample.hpa 15 15) (read_namespaced_scale Deployment) w
  = (Ret false,
     [ReadScale Deployment "ns" "a" (Ok (Sample.scale "1" 3));
      GetMetric Sample.path (Sample.metric 7)],
     Sample.cluster [Ok (Sample.scale "1" 3)] [] [Sample.metric 7] [])
  /\ existsb is_patch (events_of (update_target (Sample.hpa 15 15) w)) = false.
Proof.
  intros w.
  refine (X1_stable_target_is_not_patched (Sample.hpa 15 15) Deployment w 3 1 _ _
            eq_refl eq_refl _ eq_refl).
  lia.
Defined.

(** X2. For a current count that is not negative and a desired count of
    0 or 1, an intent is detected exactly when the truth values of the
    two counts differ, the test that later cancels a wait; and the two
    intents never hold together. *)
Theorem X2_intent_iff_truth_values_differ (hpa : HPA) (current needed : Z) :
  0 <= current ->
  0 <= needed <= 1 ->
  (stabilization_window_of hpa current needed = None <-> bool_ current = bool_ needed)
  /\ scaling_up_is_needed current needed && scaling_down_is_needed current needed = false.
Proof.
  intros Hc Hn. split; [split|].
  - unfold stabilization_window_of, scaling_up_is_needed, scaling_down_is_needed, bool_.
    rewrite Z.gtb_ltb.
    destruct (Z.ltb_spec current needed), (Z.ltb_spec needed current),
      (Z.eqb_spec needed 1), (Z.eqb_spec needed 0), (Z.eqb_spec current 0);
      simpl; intros Hx; try discriminate; try reflexivity; lia.
  - apply equal_truth_values_no_intent. exact Hc.
  - unfold scaling_up_is_needed, scaling_down_is_needed. rewrite Z.gtb_ltb.
    destruct (Z.ltb_spec current needed), (Z.ltb_spec needed current),
      (Z.eqb_spec needed 1), (Z.eqb_spec needed 0); simpl; try reflexivity; lia.
Qed.

Lemma X2_witness :
  (stabilization_window_of (Sample.hpa 5 15) 0 1 = None <-> bool_ 0 = bool_ 1)
  /\ scaling_up_is_needed 0 1 && scaling_down_is_needed 0 1 = false.
Proof.
  apply (X2_intent_iff_truth_values_differ (Sample.hpa 5 15) 0 1); lia.
Defined.

Lemma wait_runs_out_confirms hpa k end_time w :
  wait_runs_out hpa (read_namespaced_scale k) end_time w ->
  exists evs w',
    stabilization_loop (List.length (clock w)) hpa (read_namespaced_scale k) end_time w
    = (Ret true, evs, w')
    /\ existsb is_patch evs = false
    /\ ~ In (Log INFO (ScaleCanceled (target_kind hpa) (namespace hpa) (name hpa))) evs.
Proof.
  induction 1 as [w now w1 Htime Hle
                 |w now w1 c n evs w2 Htime Hlt Hget Hneq Hrest IH].
  - pose proof (time_ret _ _ _ _ Htime) as Hclock. rewrite Hclock. simpl.
    rewrite (bind_time _ w now (clock w1) Hclock).
    apply Z.ltb_ge in Hle. rewrite Hle.
    eexists _, _. split; [reflexivity|]. split; [reflexivity|]. intros [].
  - destruct IH as (evs' & w' & Hloop & Hpatch & Hlog).
    destruct (get_replicas_ret _ _ _ _ _ _ _ Hget) as (Hclock & s & l & Hevs & _).
    rewrite (time_ret _ _ _ _ Htime). simpl. unfold bind at 1. rewrite Htime.
    apply Z.ltb_lt in Hlt. rewrite Hlt. unfold bind at 1. rewrite Hget.
    apply Bool.eqb_false_iff in Hneq. rewrite Hneq.
    unfold bind, sleep, emit. rewrite <- Hclock, Hloop. simpl.
    eexists _, _. split; [reflexivity|]. subst evs. simpl. split; [exact Hpatch|].
    intros [Hin|[Hin|[Hin|Hin]]]; try discriminate. exact (Hlog Hin).
Qed.

(** X3. With a nonzero window, when every poll of the wait reads unequal
    truth values until the clock reaches the end of the window,
    [scaling_is_needed] returns [True] without logging a cancellation. *)
Theorem X3_elapsed_window_confirms (hpa : HPA) (k : workload) (w : World)
    (current needed : Z) (evs0 : list event) (w0 : World)
    (window now : Z) (w1 : World) :
  get_replicas hpa (read_namespaced_scale k) w = (Ret (current, needed), evs0, w0) ->
  stabilization_window_of hpa current needed = Some window ->
  window <> 0 ->
  time w0 = (Ret now, [], w1) ->
  wait_runs_out hpa (read_namespaced_scale k) (now + window) w1 ->
  exists evs w',
    scaling_is_needed hpa (read_namespaced_scale k) w = (Ret true, evs, w')
    /\ ~ In (Log INFO (ScaleCanceled (target_kind hpa) (namespace hpa) (name hpa))) evs.
Proof.
  intros Hget Hwin Hnz Htime Hwait.
  destruct (wait_runs_out_confirms _ _ _ _ Hwait) as (evs1 & w' & Hloop & _ & Hlog).
  destruct (get_replicas_ret _ _ _ _ _ _ _ Hget) as (_ & s & l & Hevs0 & _).
  eexists _, w'. split.
  - unfold scaling_is_needed. unfold bind at 1. rewrite Hget, Hwin.
    apply Z.eqb_neq in Hnz. rewrite Hnz. simpl.
    unfold bind at 1. rewrite Htime. unfold bind, log, emit. rewrite Hloop. reflexivity.
  - subst evs0. simpl. intros [Hin|[Hin|[Hin|Hin]]]; try discriminate. exact (Hlog Hin).
Qed.

(** Three replicas run, the metric is 0 and the scale-down window is 2 s
    from t = 100: the poll at t = 101 still reads 3 and 0, and at t = 102
    the window is over. *)
Lemma X3_witness :
  let three := Ok (Sample.scale "1" 3) in
  let w := Sample.cluster [three; three] [] [Sample.metric 0; Sample.metric 0]
                          [100; 101; 102] in
  exists evs w',
    scaling_is_needed (Sample.hpa 0 2) (read_namespaced_scale Deployment) w
    = (Ret true, evs, w')
    /\ ~ In (Log INFO (ScaleCanceled "Deployment" "ns" "a")) evs.
Proof.
  intros three w.
  pose (read := [ReadScale Deployment "ns" "a" three;
                 GetMetric Sample.path (Sample.metric 0)]).
  pose (w0 := Sample.cluster [three] [] [Sample.metric 0] [100; 101; 102]).
  pose (w1 := Sample.cluster [three] [] [Sample.metric 0] [101; 102]).
  pose (w2 := Sample.cluster [three] [] [Sample.metric 0] [102]).
  pose (w3 := Sample.cluster [] [] [] [102]).
  pose (w4 := Sample.cluster [] [] [] []).
  refine (X3_elapsed_window_confirms (Sample.hpa 0 2) Deployment w 3 0 read w0 2 100 w1
            eq_refl eq_refl _ eq_refl _).
  - discriminate.
  - refine (@runs_out_later (Sample.hpa 0 2) (read_namespaced_scale Deployment) (100 + 2)
              w1 101 w2 3 0 read w3 eq_refl _ eq_refl _ _).
    + reflexivity.
    + discriminate.
    + refine (@runs_out_now (Sample.hpa 0 2) (read_namespaced_scale Deployment) (100 + 2)
                w3 102 w4 eq_refl _).
      discriminate.
Defined.

(** ** The apply step *)

(** X4. Once the need is confirmed, [update_target] reads the scale, then
    reads scale and metric again through [get_replicas], and patches: the
    body is the first of these two objects, its [spec.replicas] is
    [min(v, 1)] for the metric value [v] fetched at this step (whatever
    value raised the intent), and the log line reports the status
    replicas of the second object. *)
Theorem X4_apply_step (hpa : HPA) (k : workload) (w : World)
    (evs0 : list event) (w0 : World) (body later : V1Scale) (v : Z)
    (more : list quantity) (scales : list (reply V1Scale))
    (metrics : list (reply MetricValueList)) (answers : list (reply unit)) :
  workload_of (target_kind hpa) = Some k ->
  scaling_is_needed hpa (read_namespaced_scale k) w = (Ret true, evs0, w0) ->
  scale_reads w0 = Ok body :: Ok later :: scales ->
  metric_reads w0 = Ok (mkMetricValueList (Integral v :: more)) :: metrics ->
  patch_replies w0 = Ok tt :: answers ->
  update_target hpa w
  = (Ret tt,
     evs0 ++ [ReadScale k (namespace hpa) (name hpa) (Ok body);
              ReadScale k (namespace hpa) (name hpa) (Ok later);
              GetMetric (metric_value_path hpa) (Ok (mkMetricValueList (Integral v :: more)));
              PatchScale k (namespace hpa) (name hpa)
                         (set_spec_replicas body (Z.min v 1)) (Ok tt);
              Log INFO (WasScaled (target_kind hpa) (namespace hpa) (name hpa)
                                  (status_replicas later) (Z.min v 1))],
     mkWorld (HPAs w0) (watch_streams w0) (hpa_reads w0) scales answers metrics (clock w0)).
Proof.
  intros Hkind Hsin Hscales Hmetrics Hanswers.
  unfold update_target. rewrite Hkind.
  unfold update_target_with, try_except, scale_if_needed. unfold bind at 1.
  rewrite Hsin.
  unfold bind, read_namespaced_scale, get_replicas, try_except, bind,
    get_needed_replicas, try_except, bind, request_GET, patch_namespaced_scale.
  simpl. rewrite Hscales. simpl. rewrite Hmetrics. simpl. rewrite Hanswers. simpl.
  reflexivity.
Qed.

(** The intent is raised by metric 0 with one replica running; at the
    apply step the metric reads 5: the patch asks for 1. *)
Lemma X4_witness :
  let w := Sample.cluster
             [Ok (Sample.scale "1" 1); Ok (Sample.scale "2" 1); Ok (Sample.scale "3" 2)]
             [Ok tt] [Sample.metric 0; Sample.metric 5] [] in
  update_target (Sample.hpa 0 0) w
  = (Ret tt,
     [ReadScale Deployment "ns" "a" (Ok (Sample.scale "1" 1));
      GetMetric Sample.path (Sample.metric 0)]
     ++ [ReadScale Deployment "ns" "a" (Ok (Sample.scale "2" 1));
         ReadScale Deployment "ns" "a" (Ok (Sample.scale "3" 2));
         GetMetric Sample.path (Sample.metric 5);
         PatchScale Deployment "ns" "a" (set_spec_replicas (Sample.scale "2" 1) 1) (Ok tt);
         Log INFO (WasScaled "Deployment" "ns" "a" 2 1)],
     Sample.cluster [] [] [] []).
Proof.
  intros w.
  exact (X4_apply_step (Sample.hpa 0 0) Deployment w _
           (Sample.cluster [Ok (Sample.scale "2" 1); Ok (Sample.scale "3" 2)] [Ok tt]
                           [Sample.metric 5] [])
           (Sample.scale "2" 1) (Sample.scale "3" 2) 5 [] [] [] []
           eq_refl eq_refl eq_refl eq_refl eq_refl).
Defined.

(** ** What [update_target] lets through *)

(** X5. [update_target] never lets a [MetricNotFound] or an
    [ApiException] of status 404 escape: both are handled by its
    [except] clauses. *)
Theorem X5_update_target_handles_not_found (hpa : HPA) (w : World) (e : exn)
    (evs : list event) (w' : World) :
  update_target hpa w = (Raise e, evs, w') ->
  e <> MetricNotFound /\ e <> ApiException 404.
Proof.
  unfold update_target. destruct (workload_of (target_kind hpa)) as [k|].
  - unfold update_target_with, try_except.
    destruct (scale_if_needed hpa (read_namespaced_scale k) (patch_namespaced_scale k) w)
      as [[[[]|e0|] evs1] w1]; try discriminate.
    destruct e0; simpl; intros H; inversion H; subst; try (split; discriminate).
    destruct (Z.eqb_spec status 404) as [->|Hne]; simpl in *; inversion H; subst.
    split; [discriminate|]. intros Heq. inversion Heq. contradiction.
  - intros H. inversion H; subst. split; discriminate.
Qed.

(** The first read of the scale is answered 500. *)
Lemma X5_witness :
  ApiException 500 <> MetricNotFound /\ ApiException 500 <> ApiException 404.
Proof.
  exact (X5_update_target_handles_not_found (Sample.hpa 0 0)
           (Sample.cluster [Failed 500] [] [] []) (ApiException 500) _ _ eq_refl).
Defined.

(** X6. When the read of the scale at the start of the apply step is
    answered 404, [update_target] logs a warning and returns: the target
    is skipped and nothing is patched. *)
Theorem X6_apply_read_not_found_is_skipped (hpa : HPA) (k : workload) (w : World)
    (evs0 : list event) (w0 : World) (scales : list (reply V1Scale)) :
  workload_of (target_kind hpa) = Some k ->
  scaling_is_needed hpa (read_namespaced_scale k) w = (Ret true, evs0, w0) ->
  scale_reads w0 = Failed 404 :: scales ->
  update_target hpa w
  = (Ret tt,
     evs0 ++ [ReadScale k (namespace hpa) (name hpa) (Failed 404);
              Log WARNING (TargetNotFound (target_kind hpa) (namespace hpa) (name hpa))],
     mkWorld (HPAs w0) (watch_streams w0) (hpa_reads w0) scales
             (patch_replies w0) (metric_reads w0) (clock w0)).
Proof.
  intros Hkind Hsin Hscales.
  unfold update_target. rewrite Hkind.
  unfold update_target_with, try_except, scale_if_needed. unfold bind at 1.
  rewrite Hsin. unfold bind, read_namespaced_scale. rewrite Hscales. simpl.
  rewrite <- app_assoc. reflexivity.
Qed.

Lemma X6_witness :
  let w := Sample.cluster [Ok (Sample.scale "1" 1); Failed 404] [] [Sample.metric 0] [] in
  update_target (Sample.hpa 0 0) w
  = (Ret tt,
     [ReadScale Deployment "ns" "a" (Ok (Sample.scale "1" 1));
      GetMetric Sample.path (Sample.metric 0)]
     ++ [ReadScale Deployment "ns" "a" (Failed 404);
         Log WARNING (TargetNotFound "Deployment" "ns" "a")],
     Sample.cluster [] [] [] []).
Proof.
  intros w.
  exact (X6_apply_read_not_found_is_skipped (Sample.hpa 0 0) Deployment w _
           (Sample.cluster [Failed 404] [] [] []) [] eq_refl eq_refl eq_refl).
Defined.

(** X7. When the patch itself is refused, a 404 is logged as a warning
    and the target is skipped; any other status is raised again by
    [update_target].  In both cases the "was scaled" line is not logged. *)
Theorem X7_refused_patch (hpa : HPA) (k : workload) (w : World)
    (evs0 : list event) (w0 : World) (body later : V1Scale) (v status : Z)
    (more : list quantity) (scales : list (reply V1Scale))
    (metrics : list (reply MetricValueList)) (answers : list (reply unit)) :
  workload_of (target_kind hpa) = Some k ->
  scaling_is_needed hpa (read_namespaced_scale k) w = (Ret true, evs0, w0) ->
  scale_reads w0 = Ok body :: Ok later :: scales ->
  metric_reads w0 = Ok (mkMetricValueList (Integral v :: more)) :: metrics ->
  patch_replies w0 = Failed status :: answers ->
  let attempt :=
    evs0 ++ [ReadScale k (namespace hpa) (name hpa) (Ok body);
             ReadScale k (namespace hpa) (name hpa) (Ok later);
             GetMetric (metric_value_path hpa) (Ok (mkMetricValueList (Integral v :: more)));
             PatchScale k (namespace hpa) (name hpa)
                        (set_spec_replicas body (Z.min v 1)) (Failed status)] in
  let w' := mkWorld (HPAs w0) (watch_streams w0) (hpa_reads w0) scales answers metrics
                    (clock w0) in
  update_target hpa w
  = if status =? 404
    then (Ret tt,
          attempt ++ [Log WARNING (TargetNotFound (target_kind hpa) (namespace hpa)
                                                  (name hpa))],
          w')
    else (Raise (ApiException status), attempt, w').
Proof.
  intros Hkind Hsin Hscales Hmetrics Hanswers attempt w'. subst attempt w'.
  unfold update_target. rewrite Hkind.
  unfold update_target_with, try_except, scale_if_needed. unfold bind at 1.
  rewrite Hsin.
  unfold bind, read_namespaced_scale, get_replicas, try_except, bind,
    get_needed_replicas, try_except, bind, request_GET, patch_namespaced_scale.
  simpl. rewrite Hscales. simpl. rewrite Hmetrics. simpl. rewrite Hanswers. simpl.
  destruct (status =? 404); simpl; rewrite <- ?app_assoc, ?app_nil_r; reflexivity.
Qed.

(** The patch is answered 409. *)
Lemma X7_witness :
  let w := Sample.cluster
             [Ok (Sample.scale "1" 1); Ok (Sample.scale "2" 1); Ok (Sample.scale "3" 1)]
             [Failed 409] [Sample.metric 0; Sample.metric 0] [] in
  fst (fst (update_target (Sample.hpa 0 0) w)) = Raise (ApiException 409).
Proof.
  intros w.
  rewrite (X7_refused_patch (Sample.hpa 0 0) Deployment w _
             (Sample.cluster [Ok (Sample.scale "2" 1); Ok (Sample.scale "3" 1)]
                             [Failed 409] [Sample.metric 0] [])
             (Sample.scale "2" 1) (Sample.scale "3" 1) 0 409 [] [] [] []
             eq_refl eq_refl eq_refl eq_refl eq_refl).
  reflexivity.
Defined.

(** X8. A metric reply that holds no item, or whose first item is not
    an integer, is not handled anywhere: [IndexError] or [ValueError]
    leaves [update_target] at the first read of the evaluation. *)
Theorem X8_malformed_metric_reply (hpa : HPA) (k : workload) (w : World)
    (s : V1Scale) (l : MetricValueList) (e : exn)
    (scales : list (reply V1Scale)) (metrics : list (reply MetricValueList)) :
  workload_of (target_kind hpa) = Some k ->
  scale_reads w = Ok s :: scales ->
  metric_reads w = Ok l :: metrics ->
  py_bind (item0 (items l)) int_ = inl e ->
  (e = IndexError \/ e = ValueError)
  /\ update_target hpa w
     = (Raise e,
        [ReadScale k (namespace hpa) (name hpa) (Ok s);
         GetMetric (metric_value_path hpa) (Ok l)],
        mkWorld (HPAs w) (watch_streams w) (hpa_reads w) scales (patch_replies w)
                metrics (clock w)).
Proof.
  intros Hkind Hscales Hmetrics Hbad.
  unfold update_target. rewrite Hkind.
  unfold update_target_with, try_except, scale_if_needed, scaling_is_needed.
  unfold bind, read_namespaced_scale, get_replicas, try_except, bind,
    get_needed_replicas, try_except, bind, request_GET.
  rewrite Hscales. simpl. rewrite Hmetrics. simpl.
  destruct l as [[|[n|] more]]; simpl in Hbad; inversion Hbad; subst; simpl; auto.
Qed.

(** The adapter answers with an empty list of items. *)
Lemma X8_witness :
  let w := Sample.cluster [Ok (Sample.scale "1" 1)] [] [Ok (mkMetricValueList [])] [] in
  (IndexError = IndexError \/ IndexError = ValueError)
  /\ update_target (Sample.hpa 0 0) w
     = (Raise IndexError,
        [ReadScale Deployment "ns" "a" (Ok (Sample.scale "1" 1));
         GetMetric Sample.path (Ok (mkMetricValueList []))],
        Sample.cluster [] [] [] []).
Proof.
  intros w.
  exact (X8_malformed_metric_reply (Sample.hpa 0 0) Deployment w (Sample.scale "1" 1)
           (mkMetricValueList []) IndexError [] [] eq_refl eq_refl eq_refl eq_refl).
Defined.

(** ** The thread of [_watch] *)

Lemma for_hpa_raises pre hpa post e :
  forall w evs1 w1 evs2 w2,
    for_hpa pre w = (Ret tt, evs1, w1) ->
    update_target hpa w1 = (Raise e, evs2, w2) ->
    for_hpa (pre ++ hpa :: post) w = (Raise e, evs1 ++ evs2, w2).
Proof.
  induction pre as [|h pre IH]; intros w evs1 w1 evs2 w2 Hpre Hrun; simpl in *.
  - inversion Hpre; subst. unfold bind. rewrite Hrun. reflexivity.
  - unfold bind in *.
    destruct (update_target h w) as [[[[]|e0|] ea] wa]; try discriminate.
    destruct (for_hpa pre wa) as [[rb eb] wb] eqn:Hb.
    inversion Hpre; subst.
    rewrite (IH _ _ _ _ _ Hb Hrun), app_assoc. reflexivity.
Qed.

Lemma first_hpa_raises w hpa post e evs w' cycles :
  dict_values (HPAs w) = hpa :: post ->
  update_target hpa w = (Raise e, evs, w') ->
  _watch (S cycles) w = (Exited 1, evs ++ [Log ERROR (ExitingBecauseOf e)], w').
Proof.
  intros Hsnap Hrun. unfold _watch. simpl.
  unfold bind at 1. unfold HPAs_values. rewrite Hsnap.
  unfold bind at 1.
  change (hpa :: post) with ([] ++ hpa :: post).
  rewrite (for_hpa_raises [] hpa post e w [] w evs w' eq_refl Hrun).
  reflexivity.
Qed.

(** X9. An exception that leaves [update_target] for one HPA of the
    snapshot ends the process: the HPAs before it were evaluated, the
    HPAs after it are not, the exception is logged and the process exits
    with code 1. *)
Theorem X9_exception_ends_process (w : World) (pre post : list HPA) (hpa : HPA)
    (e : exn) (evs1 evs2 : list event) (w1 w2 : World) (cycles : nat) :
  dict_values (HPAs w) = pre ++ hpa :: post ->
  for_hpa pre w = (Ret tt, evs1, w1) ->
  update_target hpa w1 = (Raise e, evs2, w2) ->
  _watch (S cycles) w
  = (Exited 1, (evs1 ++ evs2) ++ [Log ERROR (ExitingBecauseOf e)], w2).
Proof.
  intros Hsnap Hpre Hrun. unfold _watch. simpl.
  unfold bind at 1. unfold HPAs_values. rewrite Hsnap.
  unfold bind at 1. rewrite (for_hpa_raises pre hpa post e _ _ _ _ _ Hpre Hrun).
  reflexivity.
Qed.

(** [ns/a] is evaluated and left alone; the scale of [ns/b] answers 500;
    [ns/c] is never looked at. *)
Lemma X9_witness :
  let b := mkHPA "b" "ns" Sample.path "StatefulSet" "b" 0 0 in
  let c := mkHPA "c" "ns" Sample.path "Deployment" "c" 0 0 in
  let w := mkWorld [("ns/a", Sample.hpa 0 0); ("ns/b", b); ("ns/c", c)] [] []
             [Ok (Sample.scale "1" 1); Ok (Sample.scale "1" 1); Failed 500] []
             [Sample.metric 3; Sample.metric 3] [] in
  fst (_watch 1 w)
  = (Exited 1,
     [ReadScale Deployment "ns" "a" (Ok (Sample.scale "1" 1));
      GetMetric Sample.path (Sample.metric 3);
      ReadScale Deployment "ns" "a" (Ok (Sample.scale "1" 1));
      GetMetric Sample.path (Sample.metric 3);
      Log INFO (NoNeedToScale "Deployment" "ns" "a" 1 1);
      ReadScale StatefulSet "ns" "b" (Failed 500);
      Log ERROR (ExitingBecauseOf (ApiException 500))]).
Proof.
  intros b c w.
  rewrite (X9_exception_ends_process w [Sample.hpa 0 0] [c] b (ApiException 500)
             _ _ _ _ 0 eq_refl eq_refl eq_refl).
  reflexivity.
Defined.

(** X10. A scale read answered 404 inside [get_replicas] ends the
    process whatever the HPA: for the first HPA of the snapshot, of a
    supported kind, the thread logs the warning of [get_replicas], then
    the [UnboundLocalError], and exits with code 1. *)
Theorem X10_not_found_in_get_replicas_exits (w : World) (key : string) (hpa : HPA)
    (others : list (string * HPA)) (k : workload) (scales : list (reply V1Scale))
    (cycles : nat) :
  HPAs w = (key, hpa) :: others ->
  workload_of (target_kind hpa) = Some k ->
  scale_reads w = Failed 404 :: scales ->
  fst (_watch (S cycles) w)
  = (Exited 1,
     [ReadScale k (namespace hpa) (name hpa) (Failed 404);
      Log WARNING (ReplicasTargetNotFound (namespace hpa) (name hpa));
      Log ERROR (ExitingBecauseOf UnboundLocalError)]).
Proof.
  intros Hreg Hkind Hscales.
  destruct (update_target_not_found hpa k w scales Hkind Hscales) as [w' Hrun].
  assert (Hsnap : dict_values (HPAs w) = hpa :: dict_values others).
  { unfold dict_values. rewrite Hreg. reflexivity. }
  rewrite (first_hpa_raises w hpa (dict_values others) UnboundLocalError _ w' cycles
             Hsnap Hrun).
  reflexivity.
Qed.

(** The first scale read of the cycle is answered 404; the registry holds
    a StatefulSet target. *)
Lemma X10_witness :
  let b := mkHPA "b" "ns" Sample.path "StatefulSet" "b" 0 30 in
  let w := mkWorld [("ns/b", b); ("ns/a", Sample.hpa 0 0)] [] [] [Failed 404] [] [] [] in
  fst (_watch 3 w)
  = (Exited 1,
     [ReadScale StatefulSet "ns" "b" (Failed 404);
      Log WARNING (ReplicasTargetNotFound "ns" "b");
      Log ERROR (ExitingBecauseOf UnboundLocalError)]).
Proof.
  intros b w.
  exact (X10_not_found_in_get_replicas_exits w "ns/b" b [("ns/a", Sample.hpa 0 0)]
           StatefulSet [] 2 eq_refl eq_refl eq_refl).
Defined.

(** ** Discovery *)

Lemma accepted_shape pre m post cm selector target kind :
  Forall other_entry pre ->
  object_entry m cm ->
  dot_get cm "selector" = inr selector ->
  truthy selector = false ->
  subscript cm "target" = inr target ->
  subscript target "kind" = inr kind ->
  eq_str kind "Service" = true ->
  custom_metric_and_target (JArr (pre ++ m :: post)) = inr (cm, target).
Proof.
  intros Hpre Hm Hsel Hfalsy Htarget Hkind Hservice.
  unfold custom_metric_and_target. unfold py_iter. unfold py_bind at 1.
  rewrite (next_object_skips _ _ Hpre), (next_object_here _ _ _ Hm).
  unfold py_bind at 1. rewrite Hsel. unfold py_bind at 1. rewrite Hfalsy.
  unfold negb, py_assert, py_bind at 1. rewrite Htarget. unfold py_bind at 1.
  rewrite Hkind. unfold py_bind at 1. rewrite Hservice. reflexivity.
Qed.

(** X11. An annotation is accepted on its first entry of type "Object":
    entries of other types before it are skipped and the entries after it
    are not looked at.  When that entry has no selector, or an empty one,
    and a target of kind "Service", the path is built from the namespace
    of the HPA, the name of the target and the metric name, and nothing is
    logged. *)
Theorem X11_first_object_entry_resolves (hpa : V1HorizontalPodAutoscaler)
    (pre post : list json) (m cm selector target kind service metric : json) :
  load_metrics hpa = inr (JArr (pre ++ m :: post)) ->
  Forall other_entry pre ->
  object_entry m cm ->
  dot_get cm "selector" = inr selector ->
  truthy selector = false ->
  subscript cm "target" = inr target ->
  subscript target "kind" = inr kind ->
  eq_str kind "Service" = true ->
  subscript target "name" = inr service ->
  subscript cm "metricName" = inr metric ->
  resolution hpa
  = (Ret (mkPath (meta_namespace (hpa_metadata hpa)) service metric), []).
Proof.
  intros Hload Hpre Hm Hsel Hfalsy Htarget Hkind Hservice Hname Hmetric.
  unfold resolution, build_metric_value_path.
  unfold bind at 1. unfold lift at 1. rewrite Hload.
  unfold ret at 1. unfold bind at 1. unfold try_except, lift at 1.
  rewrite (accepted_shape pre m post cm selector target kind
             Hpre Hm Hsel Hfalsy Htarget Hkind Hservice).
  unfold ret at 1. unfold bind at 1. unfold lift at 1. rewrite Hname.
  unfold ret at 1. unfold bind at 1. unfold lift at 1. rewrite Hmetric.
  reflexivity.
Qed.

(** A Pods entry, then an Object entry with an empty selector, then an
    Object entry on a Deployment. *)
Lemma X11_witness :
  let pods := JObj [("type", JStr "Pods")] in
  let target := JObj [("kind", JStr "Service"); ("name", JStr "svc")] in
  let cm := JObj [("target", target); ("metricName", JStr "foo_metric");
                  ("selector", JObj [])] in
  let m := JObj [("type", JStr "Object"); ("object", cm)] in
  let last :=
    JObj [("type", JStr "Object");
          ("object", JObj [("target", JObj [("kind", JStr "Deployment")])])] in
  resolution (Sample.hpa_object (Some (JArr [pods; m; last])))
  = (Ret (mkPath "ns" (JStr "svc") (JStr "foo_metric")), []).
Proof.
  intros pods target cm m last.
  refine (X11_first_object_entry_resolves
            (Sample.hpa_object (Some (JArr [pods; m; last])))
            [pods] [last] m cm (JObj []) target (JStr "Service") (JStr "svc")
            (JStr "foo_metric") eq_refl _ _ eq_refl eq_refl eq_refl eq_refl eq_refl
            eq_refl eq_refl).
  - constructor; [|constructor]. exists (JStr "Pods"). split; reflexivity.
  - exists (JStr "Object"). repeat split; reflexivity.
Defined.

Lemma dict_get_set_same {V} (k : string) (v : V) (d : list (string * V)) :
  dict_get k (dict_set k v d) = Some v.
Proof.
  induction d as [|[k0 v0] d IH]; simpl.
  - rewrite String.eqb_refl. reflexivity.
  - destruct (String.eqb k k0) eqn:E; simpl.
    + rewrite String.eqb_refl. reflexivity.
    + rewrite E. exact IH.
Qed.

Lemma dict_get_pop_frame {V} (k k' : string) (d : list (string * V)) :
  k <> k' -> dict_get k (dict_pop k' d) = dict_get k d.
Proof.
  intros Hne. induction d as [|[k0 v0] d IH]; simpl; [reflexivity|].
  destruct (String.eqb k' k0) eqn:E'.
  - apply String.eqb_eq in E'. subst k0.
    apply String.eqb_neq in Hne. rewrite Hne. exact IH.
  - simpl. destruct (String.eqb k k0); [reflexivity | exact IH].
Qed.

Lemma dict_pop_absent {V} (k : string) (d : list (string * V)) :
  dict_get k d = None -> dict_pop k d = d.
Proof.
  induction d as [|[k0 v0] d IH]; simpl; [reflexivity|].
  destruct (String.eqb k k0); [discriminate|]. intros H. rewrite (IH H). reflexivity.
Qed.

Lemma resolution_ret_silent hpa path :
  fst (resolution hpa) = Ret path -> snd (resolution hpa) = [].
Proof.
  unfold resolution, build_metric_value_path, bind, try_except, lift.
  destruct (load_metrics hpa) as [e0|metrics]; simpl; [discriminate|].
  destruct (custom_metric_and_target metrics) as [e1|[cm target]]; simpl.
  - destruct e1; simpl; discriminate.
  - destruct (subscript target "name") as [e2|service]; simpl; [discriminate|].
    destruct (subscript cm "metricName") as [e3|metric]; simpl; [discriminate|].
    reflexivity.
Qed.

Lemma update_hpa_upserts metadata up down w hpa rest path :
  hpa_reads w = Ok hpa :: rest ->
  fst (resolution hpa) = Ret path ->
  update_hpa metadata up down w
  = (Ret tt,
     [ReadHPA (meta_namespace metadata) (meta_name metadata) (Ok hpa)],
     mkWorld (dict_set (namespaced_name metadata) (record_of metadata hpa path up down)
                       (HPAs w))
             (watch_streams w) rest (scale_reads w) (patch_replies w)
             (metric_reads w) (clock w)).
Proof.
  intros Hread Hres. pose proof (resolution_ret_silent _ _ Hres) as Hsilent.
  unfold update_hpa, try_except. unfold bind at 1.
  unfold read_namespaced_horizontal_pod_autoscaler. rewrite Hread.
  unfold bind. rewrite build_metric_value_path_run, Hres, Hsilent. reflexivity.
Qed.

(** X12. An event whose re-read finds the HPA with an annotation that
    resolves makes one API call and stores, under [namespace/name] of the
    event, a record built from the object just read and the windows of
    the command line; a lookup of that key returns it, and every other
    key keeps its record. *)
Theorem X12_upsert_then_lookup (metadata : V1ObjectMeta) (up down : Z) (w : World)
    (hpa : V1HorizontalPodAutoscaler) (rest : list (reply V1HorizontalPodAutoscaler))
    (path : metric_path) :
  hpa_reads w = Ok hpa :: rest ->
  fst (resolution hpa) = Ret path ->
  exists w',
    update_hpa metadata up down w
    = (Ret tt, [ReadHPA (meta_namespace metadata) (meta_name metadata) (Ok hpa)], w')
    /\ dict_get (namespaced_name metadata) (HPAs w')
       = Some (record_of metadata hpa path up down)
    /\ forall key, key <> namespaced_name metadata ->
                   dict_get key (HPAs w') = dict_get key (HPAs w).
Proof.
  intros Hread Hres. eexists. split; [exact (update_hpa_upserts _ _ _ _ _ _ _ Hread Hres)|].
  simpl. split.
  - apply dict_get_set_same.
  - intros key Hne. apply dict_get_set_other. exact Hne.
Qed.

(** [ns/b] is tracked; [ns/a] is discovered with windows 5 and 15. *)
Lemma X12_witness :
  let obj := Sample.hpa_object (Some (JArr [Sample.entry "svc"])) in
  let w := Sample.api [("ns/b", Sample.hpa 0 0)] [] [Ok obj] in
  exists w',
    update_hpa (Sample.meta "7") 5 15 w = (Ret tt, [ReadHPA "ns" "a" (Ok obj)], w')
    /\ dict_get "ns/a" (HPAs w')
       = Some (mkHPA "a" "ns" Sample.path "Deployment" "a" 5 15)
    /\ forall key, key <> "ns/a" -> dict_get key (HPAs w') = dict_get key (HPAs w).
Proof.
  intros obj w.
  exact (X12_upsert_then_lookup (Sample.meta "7") 5 15 w obj [] Sample.path
           eq_refl eq_refl).
Defined.

(** X13. The target kind of an HPA is stored as read, without a check:
    an HPA on another kind than Deployment or StatefulSet is registered,
    and every evaluation of its record raises [ValueError] before any
    call to the API. *)
Theorem X13_unsupported_kind_is_registered (metadata : V1ObjectMeta) (up down : Z)
    (w : World) (hpa : V1HorizontalPodAutoscaler)
    (rest : list (reply V1HorizontalPodAutoscaler)) (path : metric_path) :
  hpa_reads w = Ok hpa :: rest ->
  fst (resolution hpa) = Ret path ->
  workload_of (scale_target_ref_kind hpa) = None ->
  exists evs w' record,
    update_hpa metadata up down w = (Ret tt, evs, w')
    /\ dict_get (namespaced_name metadata) (HPAs w') = Some record
    /\ forall w2, update_target record w2 = (Raise ValueError, [], w2).
Proof.
  intros Hread Hres Hkind.
  eexists _, _, (record_of metadata hpa path up down).
  split; [exact (update_hpa_upserts _ _ _ _ _ _ _ Hread Hres)|]. split.
  - simpl. apply dict_get_set_same.
  - intros w2. unfold update_target. simpl. rewrite Hkind. reflexivity.
Qed.

(** The HPA targets a ReplicaSet. *)
Lemma X13_witness :
  let obj :=
    mkV1HPA (mkMeta "ns" "a" "1"
                    (Some [(METRICS_ANNOTATION, Some (JArr [Sample.entry "svc"]))]))
            "ReplicaSet" "a" in
  let w := Sample.api [] [] [Ok obj] in
  exists evs w' record,
    update_hpa (Sample.meta "1") 0 0 w = (Ret tt, evs, w')
    /\ dict_get "ns/a" (HPAs w') = Some record
    /\ forall w2, update_target record w2 = (Raise ValueError, [], w2).
Proof.
  intros obj w.
  exact (X13_unsupported_kind_is_registered (Sample.meta "1") 0 0 w obj [] Sample.path
           eq_refl eq_refl eq_refl).
Defined.

Lemma update_hpa_forgets metadata up down w rest :
  hpa_reads w = Failed 404 :: rest ->
  update_hpa metadata up down w
  = (Ret tt,
     [ReadHPA (meta_namespace metadata) (meta_name metadata) (Failed 404);
      Log INFO (HpaNotFound (meta_namespace metadata) (meta_name metadata))],
     mkWorld (dict_pop (namespaced_name metadata) (HPAs w))
             (watch_streams w) rest (scale_reads w) (patch_replies w)
             (metric_reads w) (clock w)).
Proof.
  intros Hread. unfold update_hpa, try_except. unfold bind at 1.
  unfold read_namespaced_horizontal_pod_autoscaler. rewrite Hread. reflexivity.
Qed.

(** X14. An event whose re-read is answered 404 returns normally and
    removes the key of the event only: every other key keeps its record,
    and when the key was not tracked the registry is left exactly as it
    was. *)
Theorem X14_not_found_removes_one_key (metadata : V1ObjectMeta) (up down : Z)
    (w : World) (rest : list (reply V1HorizontalPodAutoscaler)) :
  hpa_reads w = Failed 404 :: rest ->
  exists evs w',
    update_hpa metadata up down w = (Ret tt, evs, w')
    /\ dict_get (namespaced_name metadata) (HPAs w') = None
    /\ (forall key, key <> namespaced_name metadata ->
                    dict_get key (HPAs w') = dict_get key (HPAs w))
    /\ (untracked (namespaced_name metadata) w -> HPAs w' = HPAs w).
Proof.
  intros Hread. eexists _, _.
  split; [exact (update_hpa_forgets metadata up down w rest Hread)|]. simpl.
  split; [apply dict_get_pop_same|]. split.
  - intros key Hne. apply dict_get_pop_frame. exact Hne.
  - intros Hun. apply dict_pop_absent. exact Hun.
Qed.

Lemma X14_witness :
  let w := Sample.api [("ns/b", Sample.hpa 0 0); ("ns/a", Sample.hpa 5 15)] []
                      [Failed 404] in
  exists evs w',
    update_hpa (Sample.meta "1") 0 0 w = (Ret tt, evs, w')
    /\ dict_get "ns/a" (HPAs w') = None
    /\ (forall key, key <> "ns/a" -> dict_get key (HPAs w') = dict_get key (HPAs w))
    /\ (untracked "ns/a" w -> HPAs w' = HPAs w).
Proof.
  intros w.
  exact (X14_not_found_removes_one_key (Sample.meta "1") 0 0 w [] eq_refl).
Defined.

(** X15. When the re-read of the HPA fails with another status than 404,
    [update_hpa] raises the [ApiException] again without a log line and
    leaves the registry as it was. *)
Theorem X15_read_error_is_raised (metadata : V1ObjectMeta) (up down : Z) (w : World)
    (status : Z) (rest : list (reply V1HorizontalPodAutoscaler)) :
  hpa_reads w = Failed status :: rest ->
  status <> 404 ->
  exists w',
    update_hpa metadata up down w
    = (Raise (ApiException status),
       [ReadHPA (meta_namespace metadata) (meta_name metadata) (Failed status)],
       w')
    /\ HPAs w' = HPAs w.
Proof.
  intros Hread Hne. unfold update_hpa, try_except. unfold bind at 1.
  unfold read_namespaced_horizontal_pod_autoscaler. rewrite Hread.
  apply Z.eqb_neq in Hne. rewrite Hne. simpl. eexists. split; reflexivity.
Qed.

Lemma X15_witness :
  let w := Sample.api [("ns/a", Sample.hpa 0 0)] [] [Failed 403] in
  exists w',
    update_hpa (Sample.meta "1") 0 0 w
    = (Raise (ApiException 403), [ReadHPA "ns" "a" (Failed 403)], w')
    /\ HPAs w' = HPAs w.
Proof.
  intros w.
  refine (X15_read_error_is_raised (Sample.meta "1") 0 0 w 403 [] eq_refl _).
  discriminate.
Defined.

(** ** The watch *)

(** X17. After the [for] over one stream, [watch_hpa] opens the next
    stream when the stream ended or when an [ApiException] of status 410
    was raised, by the stream or by the handling of one of its events;
    any other exception leaves [watch_hpa]. *)
Theorem X17_gone_reopens_the_watch (args : Args) (rounds : nat) (w : World)
    (s : watch_stream) (streams : list watch_stream)
    (r1 : result unit) (evs1 : list event) (w2 : World) :
  watch_streams w = s :: streams ->
  for_event args (stream_events s) (stream_end s) (after_open w) = (r1, evs1, w2) ->
  watch_hpa_rounds (S rounds) args w
  = if reopens r1
    then (let '(r, evs, w') := watch_hpa_rounds rounds args w2 in
          (r, (OpenWatch (hpa_namespace args) (hpa_label_selector args) :: evs1) ++ evs, w'))
    else (r1, OpenWatch (hpa_namespace args) (hpa_label_selector args) :: evs1, w2).
Proof.
  intros Hstream Hfor. unfold after_open in Hfor. rewrite Hstream in Hfor. simpl in Hfor.
  simpl. unfold bind at 1. unfold try_except. unfold bind at 1. unfold open_stream.
  rewrite Hstream. rewrite Hfor.
  destruct r1 as [[]|e|]; simpl.
  - destruct (watch_hpa_rounds rounds args w2) as [[r evs] w']. reflexivity.
  - destruct e; simpl; try reflexivity.
    destruct (status =? 410); simpl; rewrite app_nil_r; [|reflexivity].
    destruct (watch_hpa_rounds rounds args w2) as [[r evs] w']. reflexivity.
  - reflexivity.
Qed.

(** The first stream expires with 410 before any event; the second one
    ends with 500. *)
Lemma X17_witness :
  let w := Sample.api [] [mkStream [] (Some 410); mkStream [] (Some 500)] [] in
  watch_hpa_rounds 2 Sample.args w
  = (Raise (ApiException 500), [OpenWatch "ns" ""; OpenWatch "ns" ""], Sample.api [] [] []).
Proof.
  intros w.
  rewrite (X17_gone_reopens_the_watch Sample.args 1 w (mkStream [] (Some 410))
             [mkStream [] (Some 500)] (Raise (ApiException 410)) []
             (Sample.api [] [mkStream [] (Some 500)] []) eq_refl eq_refl).
  reflexivity.
Defined.

Lemma watch_hpa_rounds_ends args rounds :
  forall w r evs w',
    watch_hpa_rounds rounds args w = (r, evs, w') ->
    r = Starved \/ exists e, r = Raise e /\ e <> ApiException 410.
Proof.
  induction rounds as [|rounds IH]; intros w r evs w' Hrun; simpl in Hrun.
  - inversion Hrun; subst. left. reflexivity.
  - unfold bind at 1 in Hrun.
    destruct (try_except _ _ w) as [[r1 evs1] w1] eqn:Etry.
    destruct r1 as [[]|e|].
    + destruct (watch_hpa_rounds rounds args w1) as [[r2 evs2] w2] eqn:Hrest.
      inversion Hrun; subst. exact (IH _ _ _ _ Hrest).
    + inversion Hrun; subst. right. exists e. split; [reflexivity|].
      unfold try_except in Etry.
      destruct (bind _ _ w) as [[[[]|e0|] eb] wb]; try discriminate.
      destruct e0; simpl in Etry; try (inversion Etry; subst; discriminate).
      destruct (Z.eqb_spec status 410) as [->|Hne]; simpl in Etry;
        inversion Etry; subst.
      intros Heq. inversion Heq. contradiction.
    + inversion Hrun; subst. left. reflexivity.
Qed.

(** X18. [watch_hpa] never returns, and the exception that ends it is
    never an [ApiException] of status 410: within the described
    environment it either raises another exception or is still
    watching. *)
Theorem X18_watch_hpa_only_ends_by_exception (args : Args) (w : World)
    (r : result unit) (evs : list event) (w' : World) :
  watch_hpa args w = (r, evs, w') ->
  r = Starved \/ exists e, r = Raise e /\ e <> ApiException 410.
Proof.
  unfold watch_hpa, bind, log, emit. simpl. intros Hrun.
  destruct (watch_hpa_rounds (List.length (watch_streams w)) args w)
    as [[r0 evs0] w0] eqn:Hrounds.
  inversion Hrun; subst. exact (watch_hpa_rounds_ends _ _ _ _ _ _ Hrounds).
Qed.

(** One stream, which ends with 500. *)
Lemma X18_witness :
  @Raise unit (ApiException 500) = Starved
  \/ exists e, @Raise unit (ApiException 500) = Raise e /\ e <> ApiException 410.
Proof.
  exact (X18_watch_hpa_only_ends_by_exception Sample.args
           (Sample.api [] [mkStream [] (Some 500)] []) (Raise (ApiException 500))
           _ _ eq_refl).
Defined.

(** ** Each thread keeps to its side *)

Lemma resolution_events hpa :
  forallb is_discovery_event (snd (resolution hpa)) = true.
Proof.
  unfold resolution, build_metric_value_path, bind, try_except, lift.
  destruct (load_metrics hpa) as [e0|metrics]; simpl; [reflexivity|].
  destruct (custom_metric_and_target metrics) as [e1|[cm target]]; simpl.
  - destruct e1; reflexivity.
  - destruct (subscript target "name") as [e2|service]; simpl; [reflexivity|].
    destruct (subscript cm "metricName") as [e3|metric]; reflexivity.
Qed.

Lemma update_hpa_keeps_to_discovery metadata up down w r evs w' :
  update_hpa metadata up down w = (r, evs, w') ->
  forallb is_discovery_event evs = true /\ workloads_untouched w w'.
Proof.
  intros Hrun. unfold update_hpa, try_except in Hrun. unfold bind at 1 in Hrun.
  unfold read_namespaced_horizontal_pod_autoscaler in Hrun. unfold workloads_untouched.
  destruct (hpa_reads w) as [|[hpa|st] rest] eqn:Hread; simpl in Hrun.
  - inversion Hrun; subst. repeat split.
  - unfold bind in Hrun. rewrite build_metric_value_path_run in Hrun.
    pose proof (resolution_events hpa) as Hevs.
    destruct (fst (resolution hpa)) as [path|e|] eqn:Hres.
    + simpl in Hrun. inversion Hrun; subst. simpl.
      rewrite forallb_app, Hevs. repeat split.
    + pose proof (resolution_raises _ _ Hres) as Hapi.
      destruct e; try discriminate; inversion Hrun; subst; simpl; rewrite Hevs;
        repeat split.
    + inversion Hrun; subst. simpl. rewrite Hevs. repeat split.
  - destruct (negb (st =? 404)); simpl in Hrun; inversion Hrun; subst; simpl;
      repeat split.
Qed.

Lemma for_event_keeps_to_discovery args events ending :
  forall w r evs w',
    for_event args events ending w = (r, evs, w') ->
    forallb is_discovery_event evs = true /\ workloads_untouched w w'.
Proof.
  induction events as [|ev events IH]; intros w r evs w' Hrun; simpl in Hrun.
  - destruct ending; inversion Hrun; subst; repeat split.
  - unfold bind in Hrun.
    destruct (update_hpa _ _ _ w) as [[r1 evs1] w1] eqn:Hupd.
    destruct (update_hpa_keeps_to_discovery _ _ _ _ _ _ _ Hupd)
      as (Hevs1 & Hs1 & Hp1 & Hm1 & Hc1).
    destruct r1 as [[]|e|]; try (inversion Hrun; subst; repeat split; assumption).
    destruct (for_event args events ending w1) as [[r2 evs2] w2] eqn:Hrest.
    destruct (IH _ _ _ _ Hrest) as (Hevs2 & Hs2 & Hp2 & Hm2 & Hc2).
    inversion Hrun; subst. rewrite forallb_app, Hevs1, Hevs2.
    repeat split; congruence.
Qed.

Lemma watch_hpa_rounds_keeps_to_discovery args rounds :
  forall w r evs w',
    watch_hpa_rounds rounds args w = (r, evs, w') ->
    forallb is_discovery_event evs = true /\ workloads_untouched w w'.
Proof.
  induction rounds as [|rounds IH]; intros w r evs w' Hrun; simpl in Hrun.
  - inversion Hrun; subst. repeat split.
  - assert (Htry : forall r1 evs1 w1,
               try_except
                 (s <- open_stream (hpa_namespace args) (hpa_label_selector args) ;;
                  for_event args (stream_events s) (stream_end s))
                 (fun exc =>
                    match exc with
                    | ApiException status =>
                        Some (if negb (status =? 410) then raise exc else ret tt)
                    | _ => None
                    end) w = (r1, evs1, w1) ->
               forallb is_discovery_event evs1 = true /\ workloads_untouched w w1).
    { intros r1 evs1 w1 Htry. unfold try_except, bind, open_stream in Htry.
      destruct (watch_streams w) as [|s streams].
      - inversion Htry; subst. repeat split.
      - destruct (for_event args (stream_events s) (stream_end s) _)
          as [[r0 evs0] w0] eqn:Hfor.
        destruct (for_event_keeps_to_discovery _ _ _ _ _ _ _ Hfor)
          as (Hevs0 & Hs0 & Hp0 & Hm0 & Hc0). simpl in Hs0, Hp0, Hm0, Hc0.
        destruct r0 as [[]|e|]; try (inversion Htry; subst; simpl; rewrite Hevs0;
                                     repeat split; assumption).
        destruct e; simpl in Htry;
          try (inversion Htry; subst; simpl; rewrite Hevs0; repeat split; assumption).
        destruct (negb (status =? 410)); simpl in Htry; inversion Htry; subst; simpl;
          rewrite forallb_app, Hevs0; repeat split; assumption. }
    unfold bind at 1 in Hrun.
    destruct (try_except _ _ w) as [[r1 evs1] w1] eqn:Etry.
    destruct (Htry _ _ _ eq_refl) as (Hevs1 & Hs1 & Hp1 & Hm1 & Hc1).
    destruct r1 as [[]|e|]; try (inversion Hrun; subst; repeat split; assumption).
    destruct (watch_hpa_rounds rounds args w1) as [[r2 evs2] w2] eqn:Hrest.
    destruct (IH _ _ _ _ Hrest) as (Hevs2 & Hs2 & Hp2 & Hm2 & Hc2).
    inversion Hrun; subst. rewrite forallb_app, Hevs1, Hevs2.
    repeat split; congruence.
Qed.

(** X19. The watcher never touches a workload: all [watch_hpa] does to
    the outside is open the watch, read HPAs and log; it reads and
    patches no scale, fetches no metric, takes no reading of the clock
    and does not sleep. *)
Theorem X19_watch_hpa_keeps_to_discovery (args : Args) (w : World) :
  forallb is_discovery_event (events_of (watch_hpa args w)) = true
  /\ workloads_untouched w (snd (watch_hpa args w)).
Proof.
  unfold watch_hpa, bind, log, emit, events_of. simpl.
  destruct (watch_hpa_rounds (List.length (watch_streams w)) args w)
    as [[r evs] w'] eqn:Hrounds. simpl.
  exact (watch_hpa_rounds_keeps_to_discovery _ _ _ _ _ _ Hrounds).
Qed.

Section Reconciles.

Variable hpa : HPA.
Variable k : workload.

Lemma discovery_untouched_refl w : discovery_untouched w w.
Proof. repeat split. Qed.

Lemma discovery_untouched_trans w1 w2 w3 :
  discovery_untouched w1 w2 -> discovery_untouched w2 w3 -> discovery_untouched w1 w3.
Proof.
  intros (H1 & H2 & H3) (H4 & H5 & H6). repeat split; congruence.
Qed.

Lemma reconciles_ret {A} (a : A) : reconciles hpa k (ret a).
Proof.
  intros w r evs w' H. inversion H; subst.
  split; [constructor | apply discovery_untouched_refl].
Qed.

Lemma reconciles_raise {A} (e : exn) : reconciles hpa k (@raise A e).
Proof.
  intros w r evs w' H. inversion H; subst.
  split; [constructor | apply discovery_untouched_refl].
Qed.

Lemma reconciles_starved {A} : reconciles hpa k (@starved A).
Proof.
  intros w r evs w' H. inversion H; subst.
  split; [constructor | apply discovery_untouched_refl].
Qed.

Lemma reconciles_emit (ev : event) : addressed_to hpa k ev -> reconciles hpa k (emit ev).
Proof.
  intros Hev w r evs w' H. inversion H; subst.
  split; [constructor; [exact Hev | constructor] | apply discovery_untouched_refl].
Qed.

Lemma reconciles_lift {A} (x : py A) : reconciles hpa k (lift x).
Proof. destruct x; [apply reconciles_raise | apply reconciles_ret]. Qed.

Lemma reconciles_time : reconciles hpa k time.
Proof.
  intros w r evs w' H. unfold time in H.
  destruct (clock w); inversion H; subst; split; try constructor; repeat split.
Qed.

Lemma reconciles_read_scale :
  reconciles hpa k (read_namespaced_scale k (namespace hpa) (name hpa)).
Proof.
  intros w r evs w' H. unfold read_namespaced_scale in H.
  destruct (scale_reads w) as [|[a|st] rest]; inversion H; subst;
    (split; [repeat constructor | repeat split]).
Qed.

Lemma reconciles_patch_scale body :
  reconciles hpa k (patch_namespaced_scale k (namespace hpa) (name hpa) body).
Proof.
  intros w r evs w' H. unfold patch_namespaced_scale in H.
  destruct (patch_replies w) as [|[a|st] rest]; inversion H; subst;
    (split; [repeat constructor | repeat split]).
Qed.

Lemma reconciles_request_GET : reconciles hpa k (request_GET (metric_value_path hpa)).
Proof.
  intros w r evs w' H. unfold request_GET in H.
  destruct (metric_reads w) as [|[a|st] rest]; inversion H; subst;
    (split; [repeat constructor | repeat split]).
Qed.

Lemma reconciles_bind {A B} (m : M A) (f : A -> M B) :
  reconciles hpa k m -> (forall a, reconciles hpa k (f a)) -> reconciles hpa k (bind m f).
Proof.
  intros Hm Hf w r evs w' H. unfold bind in H.
  destruct (m w) as [[r1 evs1] w1] eqn:E1.
  destruct (Hm _ _ _ _ E1) as (Hevs1 & Hw1).
  destruct r1 as [a|e|]; try (inversion H; subst; split; assumption).
  destruct (f a w1) as [[r2 evs2] w2] eqn:E2.
  destruct (Hf a _ _ _ _ E2) as (Hevs2 & Hw2).
  inversion H; subst. split.
  - apply Forall_app. split; assumption.
  - exact (discovery_untouched_trans _ _ _ Hw1 Hw2).
Qed.

Lemma reconciles_try_except {A} (m : M A) (handler : exn -> option (M A)) :
  reconciles hpa k m ->
  (forall e h, handler e = Some h -> reconciles hpa k h) ->
  reconciles hpa k (try_except m handler).
Proof.
  intros Hm Hh w r evs w' H. unfold try_except in H.
  destruct (m w) as [[r1 evs1] w1] eqn:E1.
  destruct (Hm _ _ _ _ E1) as (Hevs1 & Hw1).
  destruct r1 as [a|e|]; try (inversion H; subst; split; assumption).
  destruct (handler e) as [h|] eqn:Eh; [|inversion H; subst; split; assumption].
  destruct (h w1) as [[r2 evs2] w2] eqn:E2.
  destruct (Hh _ _ Eh _ _ _ _ E2) as (Hevs2 & Hw2).
  inversion H; subst. split.
  - apply Forall_app. split; assumption.
  - exact (discovery_untouched_trans _ _ _ Hw1 Hw2).
Qed.

Lemma reconciles_log lvl msg : reconciles hpa k (log lvl msg).
Proof. apply reconciles_emit. exact I. Qed.

Lemma reconciles_get_needed_replicas :
  reconciles hpa k (get_needed_replicas (metric_value_path hpa)).
Proof.
  unfold get_needed_replicas. apply reconciles_try_except.
  - apply reconciles_bind; [apply reconciles_request_GET|]. intros l.
    apply reconciles_bind; [apply reconciles_lift|]. intros q.
    apply reconciles_bind; [apply reconciles_lift|]. intros v. apply reconciles_ret.
  - intros e h Hh. destruct e; try discriminate. inversion Hh; subst.
    destruct ((status =? 404) || (status =? 503) || (status =? 403)).
    + apply reconciles_bind; [apply reconciles_log | intros; apply reconciles_raise].
    + apply reconciles_raise.
Qed.

Lemma reconciles_get_replicas :
  reconciles hpa k (get_replicas hpa (read_namespaced_scale k)).
Proof.
  unfold get_replicas. apply reconciles_bind.
  - apply reconciles_try_except.
    + apply reconciles_bind; [apply reconciles_read_scale | intros; apply reconciles_ret].
    + intros e h Hh. destruct e; try discriminate. inversion Hh; subst.
      destruct (negb (status =? 404)); [apply reconciles_raise|].
      apply reconciles_bind; [apply reconciles_log | intros; apply reconciles_ret].
  - intros [s|]; [|apply reconciles_raise].
    apply reconciles_bind; [apply reconciles_get_needed_replicas|].
    intros; apply reconciles_ret.
Qed.

Lemma reconciles_stabilization_loop rounds end_time :
  reconciles hpa k (stabilization_loop rounds hpa (read_namespaced_scale k) end_time).
Proof.
  induction rounds as [|rounds IH]; simpl; [apply reconciles_starved|].
  apply reconciles_bind; [apply reconciles_time|]. intros now.
  destruct (now <? end_time); [|apply reconciles_ret].
  apply reconciles_bind; [apply reconciles_get_replicas|]. intros [c n].
  destruct (Bool.eqb (bool_ c) (bool_ n)).
  - apply reconciles_bind; [apply reconciles_log | intros; apply reconciles_ret].
  - apply reconciles_bind; [|intros; exact IH].
    apply reconciles_emit. reflexivity.
Qed.

Lemma reconciles_scaling_is_needed :
  reconciles hpa k (scaling_is_needed hpa (read_namespaced_scale k)).
Proof.
  unfold scaling_is_needed.
  apply reconciles_bind; [apply reconciles_get_replicas|]. intros [c n].
  destruct (stabilization_window_of hpa c n) as [window|]; [|apply reconciles_ret].
  destruct (negb (window =? 0)); [|apply reconciles_ret].
  apply reconciles_bind; [apply reconciles_time|]. intros now.
  apply reconciles_bind; [apply reconciles_log|]. intros _.
  intros w r evs w' H. exact (reconciles_stabilization_loop _ _ _ _ _ _ H).
Qed.

Lemma reconciles_update_target_with :
  reconciles hpa k
    (update_target_with hpa (read_namespaced_scale k) (patch_namespaced_scale k)).
Proof.
  unfold update_target_with. apply reconciles_try_except.
  - unfold scale_if_needed.
    apply reconciles_bind; [apply reconciles_scaling_is_needed|]. intros [|].
    + apply reconciles_bind; [apply reconciles_read_scale|]. intros scale.
      apply reconciles_bind; [apply reconciles_get_replicas|]. intros [c n].
      apply reconciles_bind; [apply reconciles_patch_scale | intros; apply reconciles_log].
    + apply reconciles_bind; [apply reconciles_get_replicas|]. intros [c n].
      apply reconciles_log.
  - intros e h Hh. destruct e; try discriminate; inversion Hh; subst.
    + destruct (negb (status =? 404)); [apply reconciles_raise | apply reconciles_log].
    + apply reconciles_log.
Qed.

End Reconciles.

(** X20. Every call [update_target] makes for an HPA is addressed by the
    fields of its record: scale reads and patches go to the workload kind
    of [target_kind], in [hpa.namespace], under the name [hpa.name] (the
    name of the HPA, not [hpa.target_name]); metric fetches go to
    [hpa.metric_value_path]; every sleep lasts one check interval. *)
Theorem X20_calls_are_addressed_by_the_record (hpa : HPA) (k : workload) (w : World) :
  workload_of (target_kind hpa) = Some k ->
  Forall (addressed_to hpa k) (events_of (update_target hpa w)).
Proof.
  intros Hkind. unfold update_target. rewrite Hkind.
  destruct (update_target_with hpa (read_namespaced_scale k) (patch_namespaced_scale k) w)
    as [[r evs] w'] eqn:Hrun.
  exact (proj1 (reconciles_update_target_with hpa k _ _ _ _ Hrun)).
Qed.

(** The HPA [web-hpa] targets the Deployment [web]: the scale of
    [web-hpa] is read and patched. *)
Lemma X20_witness :
  let hpa := mkHPA "web-hpa" "ns" Sample.path "Deployment" "web" 0 0 in
  let w := Sample.cluster
             [Ok (Sample.scale "1" 1); Ok (Sample.scale "1" 1); Ok (Sample.scale "1" 1)]
             [Ok tt] [Sample.metric 0; Sample.metric 0] [] in
  Forall (addressed_to hpa Deployment) (events_of (update_target hpa w))
  /\ In (PatchScale Deployment "ns" "web-hpa" (set_spec_replicas (Sample.scale "1" 1) 0)
                    (Ok tt))
        (events_of (update_target hpa w)).
Proof.
  intros hpa w. split.
  - exact (X20_calls_are_addressed_by_the_record hpa Deployment w eq_refl).
  - simpl. repeat (first [left; reflexivity | right]).
Defined.

(** X21. [update_target] leaves the discovery side alone: the registry,
    the pending watch streams and the pending HPA reads are the same
    after it, whatever the HPA and whatever the cluster answers. *)
Theorem X21_update_target_keeps_to_workloads (hpa : HPA) (w : World) :
  discovery_untouched w (snd (update_target hpa w)).
Proof.
  unfold update_target. destruct (workload_of (target_kind hpa)) as [k|].
  - destruct (update_target_with hpa (read_namespaced_scale k) (patch_namespaced_scale k) w)
      as [[r evs] w'] eqn:Hrun.
    exact (proj2 (reconciles_update_target_with hpa k _ _ _ _ Hrun)).
  - apply discovery_untouched_refl.
Qed.

(** ** Other failures of the first read *)

(** X22. A metric fetch that fails with another status than 404, 503 or
    403 is not turned into [MetricNotFound]: the [ApiException] is raised
    again, without a log line, and leaves [update_target]. *)
Theorem X22_other_metric_failure_is_raised (hpa : HPA) (k : workload) (w : World)
    (s : V1Scale) (status : Z)
    (scales : list (reply V1Scale)) (metrics : list (reply MetricValueList)) :
  workload_of (target_kind hpa) = Some k ->
  scale_reads w = Ok s :: scales ->
  metric_reads w = Failed status :: metrics ->
  status <> 404 -> status <> 503 -> status <> 403 ->
  update_target hpa w
  = (Raise (ApiException status),
     [ReadScale k (namespace hpa) (name hpa) (Ok s);
      GetMetric (metric_value_path hpa) (Failed status)],
     mkWorld (HPAs w) (watch_streams w) (hpa_reads w) scales (patch_replies w)
             metrics (clock w)).
Proof.
  intros Hkind Hscales Hmetrics H404 H503 H403.
  apply Z.eqb_neq in H404. apply Z.eqb_neq in H503. apply Z.eqb_neq in H403.
  unfold update_target. rewrite Hkind.
  unfold update_target_with, try_except, scale_if_needed, scaling_is_needed.
  unfold bind, read_namespaced_scale, get_replicas, try_except, bind,
    get_needed_replicas, try_except, bind, request_GET.
  rewrite Hscales. simpl. rewrite Hmetrics. simpl.
  rewrite H404, H503, H403. simpl. rewrite H404. reflexivity.
Qed.

Lemma X22_witness :
  let w := Sample.cluster [Ok (Sample.scale "1" 1)] [] [Failed 500] [] in
  update_target (Sample.hpa 0 0) w
  = (Raise (ApiException 500),
     [ReadScale Deployment "ns" "a" (Ok (Sample.scale "1" 1));
      GetMetric Sample.path (Failed 500)],
     Sample.cluster [] [] [] []).
Proof.
  intros w.
  refine (X22_other_metric_failure_is_raised (Sample.hpa 0 0) Deployment w
            (Sample.scale "1" 1) 500 [] [] eq_refl eq_refl eq_refl _ _ _);
    discriminate.
Defined.

(** X23. A scale read that fails with another status than 404 at the
    first read of an evaluation is raised again by [get_replicas] and by
    [update_target], without a log line and before any metric fetch. *)
Theorem X23_other_scale_failure_is_raised (hpa : HPA) (k : workload) (w : World)
    (status : Z) (scales : list (reply V1Scale)) :
  workload_of (target_kind hpa) = Some k ->
  scale_reads w = Failed status :: scales ->
  status <> 404 ->
  update_target hpa w
  = (Raise (ApiException status),
     [ReadScale k (namespace hpa) (name hpa) (Failed status)],
     mkWorld (HPAs w) (watch_streams w) (hpa_reads w) scales (patch_replies w)
             (metric_reads w) (clock w)).
Proof.
  intros Hkind Hscales H404. apply Z.eqb_neq in H404.
  unfold update_target. rewrite Hkind.
  unfold update_target_with, try_except, scale_if_needed, scaling_is_needed.
  unfold bind, read_namespaced_scale, get_replicas, try_except, bind.
  rewrite Hscales. simpl. rewrite H404. simpl. rewrite H404. reflexivity.
Qed.

Lemma X23_witness :
  let w := Sample.cluster [Failed 403] [] [Sample.metric 0] [] in
  update_target (Sample.hpa 0 0) w
  = (Raise (ApiException 403),
     [ReadScale Deployment "ns" "a" (Failed 403)],
     Sample.cluster [] [] [Sample.metric 0] []).
Proof.
  intros w.
  refine (X23_other_scale_failure_is_raised (Sample.hpa 0 0) Deployment w 403 []
            eq_refl eq_refl _).
  discriminate.
Defined.

(** ** An idle controller *)

(** X24. With an empty registry the thread of [_watch] makes no call and
    never exits: each round is one sleep of [SYNC_INTERVAL] seconds and
    the world is left as it was. *)
Theorem X24_empty_registry_only_sleeps (cycles : nat) (w : World) :
  HPAs w = [] ->
  _watch cycles w = (Running, repeat (Sleep SYNC_INTERVAL) cycles, w).
Proof.
  intros Hempty. unfold _watch.
  assert (Hcycles : watch_cycles cycles w
                    = (Ret tt, repeat (Sleep SYNC_INTERVAL) cycles, w)).
  { induction cycles as [|cycles IH]; simpl; [reflexivity|].
    unfold bind, HPAs_values, dict_values. rewrite Hempty. simpl.
    rewrite IH. reflexivity. }
  rewrite Hcycles. reflexivity.
Qed.

Lemma X24_witness :
  _watch 3 (Sample.cluster [Failed 500] [] [] [])
  = (Running, [Sleep 10; Sleep 10; Sleep 10], Sample.cluster [Failed 500] [] [] []).
Proof.
  exact (X24_empty_registry_only_sleeps 3 (Sample.cluster [Failed 500] [] [] []) eq_refl).
Defined.

(** * The metric value, the failed resolution and the rejected shape *)

(** ** A negative metric value *)





(** ** A failed resolution, wherever the event stands *)

Lemma for_event_app args pre more ending :
  forall w evs1 w1,
    for_event args pre None w = (Ret tt, evs1, w1) ->
    for_event args (pre ++ more) ending w
    = (let '(r, evs2, w2) := for_event args more ending w1 in (r, evs1 ++ evs2, w2)).
Proof.
  induction pre as [|ev pre IH]; intros w evs1 w1 Hpre; simpl in *.
  - inversion Hpre; subst.
    destruct (for_event args more ending w1) as [[r evs2] w2]. reflexivity.
  - unfold bind in *.
    destruct (update_hpa _ _ _ w) as [[[[]|e|] ea] wa]; try discriminate.
    destruct (for_event args pre None wa) as [[rb eb] wb] eqn:Hb.
    inversion Hpre; subst. rewrite (IH _ _ _ Hb).
    destruct (for_event args more ending w1) as [[r evs2] w2].
    rewrite app_assoc. reflexivity.
Qed.

Lemma reached_failure_ends_the_rounds args rounds w ev w1 evs e evs2 w2 :
  reaches args rounds w ev w1 evs ->
  update_hpa (ev_metadata ev)
             (arg_scale_up_stabilization_window args)
             (arg_scale_down_stabilization_window args) w1
  = (Raise e, evs2, w2) ->
  is_api_exception e = false ->
  watch_hpa_rounds rounds args w = (Raise e, evs ++ evs2, w2).
Proof.
  intros Hreach Hupd Hapi.
  induction Hreach as [rounds w s streams pre ev post evs1 w1 Hstream Hevents Hfor
                      |rounds w s streams r1 evs1 w3 ev w1 evs Hstream Hfor Hre Hreach IH].
  - unfold after_open in Hfor. rewrite Hstream in Hfor. simpl in Hfor.
    simpl. unfold bind at 1. unfold try_except. unfold bind at 1. unfold open_stream.
    rewrite Hstream, Hevents. rewrite (for_event_app args pre (ev :: post) _ _ _ _ Hfor).
    simpl. unfold bind at 1. rewrite Hupd.
    destruct e; try discriminate; reflexivity.
  - specialize (IH Hupd).
    unfold after_open in Hfor. rewrite Hstream in Hfor. simpl in Hfor.
    simpl. unfold bind at 1. unfold try_except. unfold bind at 1. unfold open_stream.
    rewrite Hstream, Hfor.
    destruct r1 as [[]|e1|]; simpl in Hre; try discriminate.
    + rewrite IH. cbn [app]. rewrite <- !app_assoc. reflexivity.
    + destruct e1; try discriminate. simpl. rewrite Hre. simpl.
      rewrite IH, app_nil_r. cbn [app]. rewrite <- !app_assoc. reflexivity.
Qed.

(** C4 (amended). When the watcher comes to an event, in whatever stream
    and after whatever events, whose HPA is read but whose metric
    annotation does not parse or has the wrong shape, the HPA is not
    upserted (the registry is left as it was) and the exception is not
    handled: [update_hpa] raises it, and [watch_hpa] ends with it right
    after the events of that call, without handling the events that
    follow or opening another stream.  The two exceptions of the shape
    check, [StopIteration] and [AssertionError], are logged where they
    occur. *)
Theorem C4_resolution_failure_ends_the_watch (args : Args) (w : World)
    (ev : watch_event) (w1 : World) (evs : list event)
    (hpa : V1HorizontalPodAutoscaler) (rest : list (reply V1HorizontalPodAutoscaler))
    (e : exn) :
  reaches args (List.length (watch_streams w)) w ev w1 evs ->
  hpa_reads w1 = Ok hpa :: rest ->
  fst (resolution hpa) = Raise e ->
  exists evs2 w2,
    update_hpa (ev_metadata ev)
               (arg_scale_up_stabilization_window args)
               (arg_scale_down_stabilization_window args) w1
    = (Raise e, evs2, w2)
    /\ HPAs w2 = HPAs w1
    /\ (e = StopIteration \/ e = AssertionError ->
        In (Log ERROR OnlyOneCustomMetric) evs2)
    /\ watch_hpa args w
       = (Raise e,
          [Log INFO (WillWatch (hpa_label_selector args) (hpa_namespace args));
           Log INFO (ScaleUpWindowIs (arg_scale_up_stabilization_window args));
           Log INFO (ScaleDownWindowIs (arg_scale_down_stabilization_window args))]
          ++ evs ++ evs2,
          w2)
    /\ hpa_reads w2 = rest
    /\ watch_streams w2 = watch_streams w1.
Proof.
  intros Hreach Hread Hres.
  destruct (update_hpa_resolution_fails (ev_metadata ev)
              (arg_scale_up_stabilization_window args)
              (arg_scale_down_stabilization_window args) w1 hpa rest e Hread Hres)
    as (w2 & Hupd & Hreg & Hrest & Hstreams).
  eexists _, w2. split; [exact Hupd|]. split; [exact Hreg|]. split.
  - intros He. right. exact (resolution_logged _ _ Hres He).
  - split; [|split; assumption].
    unfold watch_hpa, bind, log, emit. cbn [app].
    rewrite (reached_failure_ends_the_rounds _ _ _ _ _ _ _ _ _ Hreach Hupd
               (resolution_raises _ _ Hres)).
    reflexivity.
Qed.

(** The first stream yields an event for [ns/b] and expires with 410;
    the second yields an event for [ns/b], then one for [ns/a] whose
    annotation is not JSON, then one more, which is never handled. *)
Lemma C4_witness :
  let good := Sample.hpa_object (Some (JArr [Sample.entry "svc"])) in
  let bad := Sample.hpa_object None in
  let ev_a := mkEvent MODIFIED (Sample.meta "1") in
  let ev_b := mkEvent ADDED (mkMeta "ns" "b" "1" None) in
  let w := Sample.api [] [mkStream [ev_b] (Some 410); mkStream [ev_b; ev_a; ev_a] None]
                      [Ok good; Ok good; Ok bad; Ok good] in
  fst (fst (watch_hpa Sample.args w)) = Raise JSONDecodeError
  /\ hpa_reads (snd (watch_hpa Sample.args w)) = [Ok good]
  /\ dict_get "ns/a" (HPAs (snd (watch_hpa Sample.args w))) = None.
Proof.
  intros good bad ev_a ev_b w.
  pose (b := mkHPA "b" "ns" Sample.path "Deployment" "a" 0 0).
  pose (s2 := mkStream [ev_b; ev_a; ev_a] None).
  pose (w2 := Sample.api [("ns/b", b)] [s2] [Ok good; Ok bad; Ok good]).
  pose (w1 := Sample.api [("ns/b", b)] [] [Ok bad; Ok good]).
  assert (Hreach : reaches Sample.args (List.length (watch_streams w)) w ev_a w1
                     ((OpenWatch "ns" "" :: [ReadHPA "ns" "b" (Ok good)])
                        ++ OpenWatch "ns" "" :: [ReadHPA "ns" "b" (Ok good)])).
  { refine (@reaches_in_later_stream Sample.args 1 w (mkStream [ev_b] (Some 410)) [s2]
              (Raise (ApiException 410)) [ReadHPA "ns" "b" (Ok good)] w2 ev_a w1
              (OpenWatch "ns" "" :: [ReadHPA "ns" "b" (Ok good)])
              eq_refl eq_refl eq_refl _).
    exact (@reaches_in_stream Sample.args 0 w2 s2 [] [ev_b] ev_a [ev_a]
             [ReadHPA "ns" "b" (Ok good)] w1 eq_refl eq_refl eq_refl). }
  destruct (C4_resolution_failure_ends_the_watch Sample.args w ev_a w1 _ bad [Ok good]
              JSONDecodeError Hreach eq_refl eq_refl)
    as (evs2 & w' & Hupd & Hreg & _ & Hwatch & Hrest & _).
  rewrite Hwatch. simpl. split; [reflexivity|]. split; [exact Hrest|].
  rewrite Hreg. reflexivity.
Defined.

(** ** A rejected shape is never registered *)

Lemma rejected_event_does_not_readmit K a w :
  match a with
  | Discover ev =>
      namespaced_name (ev_metadata ev) = K ->
      exists hpa reads ms,
        hpa_reads w = Ok hpa :: reads
        /\ load_metrics hpa = inr (JArr ms)
        /\ rejected_shape ms
  | Reconcile _ => True
  end ->
  ~ readmits K a w.
Proof.
  intros Hrej. destruct a as [ev|hpa]; simpl; [|auto].
  intros (Hkey & hpa & rest & path & Hread & Hres).
  destruct (Hrej Hkey) as (hpa' & reads & ms & Hread' & Hload & Hshape).
  rewrite Hread in Hread'. inversion Hread'; subst hpa' reads.
  destruct (rejected_shape_resolution _ _ Hload Hshape) as (e & Hraise & _).
  rewrite Hres in Hraise. discriminate.
Qed.

Lemma always_rejected_never_readmitted args K acts :
  forall w, always_rejected args K acts w -> never_readmitted args K acts w.
Proof.
  induction acts as [|a rest IH]; intros w Hall; simpl in *; [exact I|].
  destruct Hall as [Hhere Hrest]. split.
  - exact (rejected_event_does_not_readmit K a w Hhere).
  - destruct (step args a w) as [[[[]|e|] evs] w']; auto.
Qed.

(** C5 does not hold as the specification words it, in two ways.  An
    annotation with two Object entries, both without selector and on a
    Service, is accepted: the HPA is registered with the path of the
    first entry.  And an HPA that is in the registry stays there when a
    later event finds its annotation without any Object entry: the event
    raises and removes nothing. *)
Lemma C5_counterexample :
  (let metrics := JArr [Sample.entry "svc"; Sample.entry "other"] in
   let w := Sample.api [] [] [Ok (Sample.hpa_object (Some metrics))] in
   let run := update_hpa (Sample.meta "1") 0 0 w in
   fst (fst run) = Ret tt
   /\ HPAs (snd run)
      = [("ns/a", mkHPA "a" "ns" (mkPath "ns" (JStr "svc") (JStr "foo_metric"))
                        "Deployment" "a" 0 0)])
  /\ (let w := Sample.api [("ns/a", Sample.hpa 0 0)] []
                          [Ok (Sample.hpa_object (Some (JArr [])))] in
      let run := update_hpa (Sample.meta "2") 0 0 w in
      fst (fst run) = Raise StopIteration
      /\ dict_get "ns/a" (HPAs (snd run)) = Some (Sample.hpa 0 0)).
Proof. repeat split. Qed.

(** C5 (amended). An event that re-reads an HPA whose metric annotation
    holds no entry of type "Object", or whose first such entry has a
    non-empty selector or a target that is not a Service (the entries up
    to it each carrying a type), never upserts: [update_hpa] logs, raises
    and leaves the registry as it was.  So an HPA that is not in the
    registry is never present in it, whatever the two threads do, as
    long as every event for it re-reads such an annotation.  Entries of
    type "Object" after the first are not looked at, and a record stored
    by an earlier event is not removed. *)
Theorem C5_rejected_shape_is_never_registered :
  (forall (w : World) (hpa : V1HorizontalPodAutoscaler)
          (rest : list (reply V1HorizontalPodAutoscaler)) (ms : list json)
          (metadata : V1ObjectMeta) (up down : Z),
      hpa_reads w = Ok hpa :: rest ->
      load_metrics hpa = inr (JArr ms) ->
      rejected_shape ms ->
      exists e evs w',
        update_hpa metadata up down w = (Raise e, evs, w')
        /\ (e = StopIteration \/ e = AssertionError)
        /\ In (Log ERROR OnlyOneCustomMetric) evs
        /\ HPAs w' = HPAs w)
  /\ (forall (args : Args) (K : string) (acts : list action) (w : World),
         untracked K w ->
         always_rejected args K acts w ->
         Forall (untracked K) (worlds_after args acts w)).
Proof.
  split.
  - intros w hpa rest ms metadata up down Hread Hload Hshape.
    destruct (rejected_shape_resolution _ _ Hload Hshape) as (e & Hres & He).
    destruct (update_hpa_resolution_fails metadata up down w hpa rest e Hread Hres)
      as (w' & Hupd & Hreg & _).
    exists e. eexists _, w'. split; [exact Hupd|]. split; [exact He|].
    split; [|exact Hreg].
    right. exact (resolution_logged _ _ Hres He).
  - intros args K acts w Hun Hall.
    apply untracked_until_readmitted; [exact Hun|].
    apply always_rejected_never_readmitted. exact Hall.
Qed.

(** [ns/a] is not tracked.  [ns/b] is discovered; then an event for
    [ns/a] re-reads an annotation with a Pods entry, an Object entry on a
    Deployment and a well-formed Object entry: the first Object entry
    decides. *)
Lemma C5_witness :
  let pods := JObj [("type", JStr "Pods")] in
  let on_deployment :=
    JObj [("type", JStr "Object");
          ("object", JObj [("target", JObj [("kind", JStr "Deployment");
                                            ("name", JStr "d")]);
                           ("metricName", JStr "foo_metric")])] in
  let metrics := [pods; on_deployment; Sample.entry "svc"] in
  let good := Sample.hpa_object (Some (JArr [Sample.entry "svc"])) in
  let bad := Sample.hpa_object (Some (JArr metrics)) in
  let ev_a := mkEvent MODIFIED (Sample.meta "1") in
  let ev_b := mkEvent ADDED (mkMeta "ns" "b" "1" None) in
  (exists e evs w',
      update_hpa (Sample.meta "1") 0 0 (Sample.api [] [] [Ok bad]) = (Raise e, evs, w')
      /\ (e = StopIteration \/ e = AssertionError)
      /\ In (Log ERROR OnlyOneCustomMetric) evs
      /\ HPAs w' = HPAs (Sample.api [] [] [Ok bad]))
  /\ Forall (untracked "ns/a")
            (worlds_after Sample.args [Discover ev_b; Discover ev_a]
                          (Sample.api [] [] [Ok good; Ok bad])).
Proof.
  intros pods on_deployment metrics good bad ev_a ev_b.
  assert (Hshape : rejected_shape metrics).
  { refine (@target_not_service [pods] on_deployment _ _ _ [Sample.entry "svc"] _ _ _ _ _).
    - constructor; [|constructor]. exists (JStr "Pods"). split; reflexivity.
    - exists (JStr "Object"). repeat split; reflexivity.
    - reflexivity.
    - reflexivity.
    - reflexivity. }
  split.
  - exact (proj1 C5_rejected_shape_is_never_registered (Sample.api [] [] [Ok bad]) bad []
             metrics (Sample.meta "1") 0 0 eq_refl eq_refl Hshape).
  - apply (proj2 C5_rejected_shape_is_never_registered Sample.args "ns/a").
    + reflexivity.
    + simpl. split; [intros Hkey; discriminate|]. split; [|exact I].
      intros _. exists bad, [], metrics. repeat split. exact Hshape.
Defined.
